(** * Soapbox telematics: the sensor and statistics core of [src/sensors.py]

    A shallow embedding of [StatisticsTracker], [HallSensor] and
    [SensorManager], with Python's [float] modelled by the kernel's binary64
    numbers, the wall clock and the statistics file by an explicit world, and
    exceptions by a result type. *)

From Stdlib Require Import ZArith Bool Floats.
From stdpp Require Import gmap strings fin_maps.

Set Warnings "-inexact-float".

Local Open Scope float_scope.

(** ** Python values and exceptions *)

Module Py.

(** The exceptions the modelled code can meet, all of them subclasses of
    [Exception], which is what the handlers of the source catch.
    [HardwareError] stands for whatever a driver read raises. *)
Inductive exn : Type :=
  | OverflowError
  | ValueError
  | ZeroDivisionError
  | KeyError
  | OSError
  | HardwareError.

Inductive result (A : Type) : Type :=
  | Ok (a : A)
  | Raise (e : exn).
Arguments Ok {A} a.
Arguments Raise {A} e.

(** [a > b] on floats: false as soon as one side is NaN. *)
Definition gt (a b : float) : bool := b <? a.

(** [max(a, b)]: the builtin keeps its first argument unless a later one
    compares greater. *)
Definition max2 (a b : float) : float := if gt b a then b else a.

(** [min(a, b)]: the first argument unless the second compares smaller. *)
Definition min2 (a b : float) : float := if b <? a then b else a.

(** [x ** 2]: [float.__pow__] calls the platform's [pow], taken here to
    round a square correctly, and raises [OverflowError] when a finite [x]
    has an infinite square. *)
Definition overflows (x : float) : bool :=
  is_finite x && is_infinity (x * x).

Definition pow2 (x : float) : result float :=
  if overflows x then Raise OverflowError else Ok (x * x).

(** [math.sqrt(x)]: a domain error for a negative argument. *)
Definition math_sqrt (x : float) : result float :=
  if x <? 0 then Raise ValueError else Ok (sqrt x).

(** [x / y]: division by a zero of either sign raises. *)
Definition truediv (x y : float) : result float :=
  if y =? 0 then Raise ZeroDivisionError else Ok (x / y).

End Py.
Export Py.

(** ** Computations with state and exceptions

    A method body is a function from the state it can reach to an outcome
    and the state it leaves. What was mutated before an exception stays
    mutated. *)

Definition M (S A : Type) : Type := S -> result A * S.

Definition ret {S A} (a : A) : M S A := fun s => (Ok a, s).

Definition bind {S A B} (c : M S A) (k : A -> M S B) : M S B :=
  fun s => match c s with
           | (Ok a, s') => k a s'
           | (Raise e, s') => (Raise e, s')
           end.

Definition raise {S A} (e : exn) : M S A := fun s => (Raise e, s).

Definition lift {S A} (r : result A) : M S A := fun s => (r, s).

Definition gets {S A} (f : S -> A) : M S A := fun s => (Ok (f s), s).

Definition modify {S} (f : S -> S) : M S unit := fun s => (Ok tt, f s).

(** [try: body except Exception: handler] *)
Definition try_except {S A} (body : M S A) (handler : exn -> M S A) : M S A :=
  fun s => match body s with
           | (Ok a, s') => (Ok a, s')
           | (Raise e, s') => handler e s'
           end.

(** [if c: body] *)
Definition when {S} (c : bool) (body : M S unit) : M S unit :=
  if c then body else ret tt.

Declare Scope py_scope.
Delimit Scope py_scope with py.
Notation "'let*' x ':=' c 'in' k" := (bind c (fun x => k))
  (at level 10, x name, c at level 100, k at level 200) : py_scope.
Notation "c ;; k" := (bind c (fun _ => k))
  (at level 100, k at level 200, right associativity) : py_scope.
Local Open Scope py_scope.

(** ** The world outside the objects

    [time.time()] is an oracle: the [ticks]-th reading of [clock]. The disk
    maps a path to what [json.load] would find there; [json.dump] followed
    by [json.load] gives back a dictionary of floats unchanged. [writable]
    says whether [open(path, 'w')] succeeds. *)

Inductive file : Type :=
  | Json (data : gmap string float)   (* a JSON object of numbers *)
  | Garbage.                          (* anything [json.load] rejects *)

Record World : Type := mkWorld {
  clock : nat -> float;
  ticks : nat;
  disk : gmap string file;
  writable : bool
}.

Definition tick (w : World) : World :=
  mkWorld (clock w) (S (ticks w)) (disk w) (writable w).

Definition now (w : World) : float := clock w (ticks w).

Definition store (path : string) (f : file) (w : World) : World :=
  mkWorld (clock w) (ticks w) (<[path := f]> (disk w)) (writable w).

Section Self.
Context {T : Type}.

(** [time.time()] *)
Definition time_time : M (World * T) float :=
  fun s => (Ok (now (fst s)), (tick (fst s), snd s)).

Definition self : M (World * T) T := gets snd.

Definition world : M (World * T) World := gets fst.

(** An assignment to an attribute of [self]. *)
Definition assign (f : T -> T) : M (World * T) unit :=
  modify (fun s => (fst s, f (snd s))).

(** [with open(path, 'w') as f: json.dump(data, f)] *)
Definition write_json (path : string) (data : gmap string float)
  : M (World * T) unit :=
  fun s => if writable (fst s)
           then (Ok tt, (store path (Json data) (fst s), snd s))
           else (Raise OSError, s).
End Self.

(** A computation on a part [U] of the state [T], run inside [T]. *)
Definition zoom {T U A} (get : T -> U) (set : U -> T -> T)
    (c : M (World * U) A) : M (World * T) A :=
  fun s => match c (fst s, get (snd s)) with
           | (r, (w', u')) => (r, (w', set u' (snd s)))
           end.

(** A computation that sees the world only, such as a channel read. *)
Definition outside {T A} (c : M World A) : M (World * T) A :=
  fun s => match c (fst s) with
           | (r, w') => (r, (w', snd s))
           end.

(** ** [class StatisticsTracker]

    [self.lock] makes every method body atomic, so each is one sequential
    computation. [print] and the unused [last_position] are left out. *)

Module StatisticsTracker.

Record t : Type := mk {
  data_file : string;
  max_speed_kmh : float;
  total_distance_km : float;
  max_cornering_force_g : float;
  max_braking_force_g : float;
  session_start_time : float;
  last_update_time : float
}.

Definition set_max_speed_kmh (v : float) (s : t) : t :=
  mk (data_file s) v (total_distance_km s) (max_cornering_force_g s)
     (max_braking_force_g s) (session_start_time s) (last_update_time s).

Definition set_total_distance_km (v : float) (s : t) : t :=
  mk (data_file s) (max_speed_kmh s) v (max_cornering_force_g s)
     (max_braking_force_g s) (session_start_time s) (last_update_time s).

Definition set_max_cornering_force_g (v : float) (s : t) : t :=
  mk (data_file s) (max_speed_kmh s) (total_distance_km s) v
     (max_braking_force_g s) (session_start_time s) (last_update_time s).

Definition set_max_braking_force_g (v : float) (s : t) : t :=
  mk (data_file s) (max_speed_kmh s) (total_distance_km s)
     (max_cornering_force_g s) v (session_start_time s) (last_update_time s).

Definition set_session_start_time (v : float) (s : t) : t :=
  mk (data_file s) (max_speed_kmh s) (total_distance_km s)
     (max_cornering_force_g s) (max_braking_force_g s) v (last_update_time s).

Definition set_last_update_time (v : float) (s : t) : t :=
  mk (data_file s) (max_speed_kmh s) (total_distance_km s)
     (max_cornering_force_g s) (max_braking_force_g s) (session_start_time s) v.

(** [data.get(key, 0.0)] *)
Definition get (data : gmap string float) (key : string) : float :=
  default 0.0 (data !! key).

Definition _load_data : M (World * t) unit :=
  try_except
    (let* s := self in
     let* w := world in
     match disk w !! data_file s with
     | None => ret tt                              (* os.path.exists is false *)
     | Some Garbage => raise ValueError            (* json.load fails *)
     | Some (Json data) =>
         assign (set_max_speed_kmh (get data "max_speed_kmh"));;
         assign (set_total_distance_km (get data "total_distance_km"));;
         assign (set_max_cornering_force_g (get data "max_cornering_force_g"));;
         assign (set_max_braking_force_g (get data "max_braking_force_g"))
     end)
    (fun _ => ret tt).

(** The dictionary [_save_data] dumps. *)
Definition saved_data (s : t) (last_updated : float) : gmap string float :=
  <["last_updated" := last_updated]>
  (<["max_braking_force_g" := max_braking_force_g s]>
  (<["max_cornering_force_g" := max_cornering_force_g s]>
  (<["total_distance_km" := total_distance_km s]>
  (<["max_speed_kmh" := max_speed_kmh s]> ∅)))).

Definition _save_data : M (World * t) unit :=
  try_except
    (let* s := self in
     let* last_updated := time_time in
     let data := saved_data s last_updated in
     write_json (data_file s) data)
    (fun _ => ret tt).

(** [StatisticsTracker(data_file)] *)
Definition __init__ (path : string) : M World t :=
  fun w =>
    let t0 := now w in
    let t1 := now (tick w) in
    let fresh := mk path 0.0 0.0 0.0 0.0 t0 t1 in
    match _load_data (tick (tick w), fresh) with
    | (Ok _, (w', s)) => (Ok s, w')
    | (Raise e, (w', _)) => (Raise e, w')
    end.

Definition update_speed (speed_kmh : float) : M (World * t) unit :=
  let* s := self in
  when (gt speed_kmh (max_speed_kmh s))
    (assign (set_max_speed_kmh speed_kmh);;
     _save_data).

Definition update_distance (current_speed_kmh : float) : M (World * t) unit :=
  let* current_time := time_time in
  let* s := self in
  let time_diff := current_time - last_update_time s in
  when (gt time_diff 0 && gt current_speed_kmh 0)
    (let* distance_km := lift (truediv (current_speed_kmh * time_diff) 3600.0) in
     assign (fun s => set_total_distance_km (total_distance_km s + distance_km) s);;
     _save_data);;
  assign (set_last_update_time current_time).

Definition update_acceleration (ax_g ay_g az_g : float) : M (World * t) unit :=
  let* ax2 := lift (pow2 ax_g) in
  let* ay2 := lift (pow2 ay_g) in
  let* lateral_force := lift (math_sqrt (ax2 + ay2)) in
  let* s := self in
  when (gt lateral_force (max_cornering_force_g s))
    (assign (set_max_cornering_force_g lateral_force);;
     _save_data);;
  let braking_force := abs (min2 0 (az_g - 1.0)) in
  let* s := self in
  when (gt braking_force (max_braking_force_g s))
    (assign (set_max_braking_force_g braking_force);;
     _save_data).

Definition get_statistics : M (World * t) (gmap string float) :=
  let* s := self in
  let* t_now := time_time in
  let* hours := lift (truediv (t_now - session_start_time s) 3600.0) in
  ret (<["session_duration_hours" := hours]>
      (<["max_braking_force_g" := max_braking_force_g s]>
      (<["max_cornering_force_g" := max_cornering_force_g s]>
      (<["total_distance_km" := total_distance_km s]>
      (<["max_speed_kmh" := max_speed_kmh s]> ∅))))).

Definition reset_statistics : M (World * t) unit :=
  assign (set_max_speed_kmh 0.0);;
  assign (set_total_distance_km 0.0);;
  assign (set_max_cornering_force_g 0.0);;
  assign (set_max_braking_force_g 0.0);;
  let* t0 := time_time in
  assign (set_session_start_time t0);;
  let* t1 := time_time in
  assign (set_last_update_time t1);;
  _save_data.

(** The world [_save_data] leaves: one reading of the clock, and the file
    rewritten when the disk takes it. *)
Definition after_save (w : World) (s : t) : World :=
  if writable w
  then store (data_file s) (Json (saved_data s (now w))) (tick w)
  else tick w.

(** A run of [update_speed] calls, in order. *)
Fixpoint update_speeds (speeds : list float) : M (World * t) unit :=
  match speeds with
  | [] => ret tt
  | v :: rest => update_speed v;; update_speeds rest
  end.

(** The four fields that reach the file. *)
Definition durable (s : t) : float * float * float * float :=
  (max_speed_kmh s, total_distance_km s,
   max_cornering_force_g s, max_braking_force_g s).


(** The calls that change the tracker. *)
Inductive mutation : Type :=
  | UpdateSpeed (speed_kmh : float)
  | UpdateDistance (current_speed_kmh : float)
  | UpdateAcceleration (ax_g ay_g az_g : float)
  | ResetStatistics.

Definition call (c : mutation) : M (World * t) unit :=
  match c with
  | UpdateSpeed v => update_speed v
  | UpdateDistance v => update_distance v
  | UpdateAcceleration ax ay az => update_acceleration ax ay az
  | ResetStatistics => reset_statistics
  end.

End StatisticsTracker.

(** The maximum of a sequence as the builtin [max] finds it: nothing for an
    empty sequence, else the first element no later one compares greater
    than. *)
Definition maximum (values : list float) : option float :=
  match values with
  | [] => None
  | v :: rest => Some (fold_left max2 rest v)
  end.

(** ** [class HallSensor]

    Pulses arrive from an interrupt or from the simulating thread; the lock
    makes the callback and the read atomic. [pulse_count] is a Python [int]. *)

Module HallSensor.

Record t : Type := mk {
  gpio_pin : Z;
  wheel_circumference_m : float;
  last_pulse_time : float;
  pulse_count : Z;
  speed_kmh : float
}.

Definition set_last_pulse_time (v : float) (s : t) : t :=
  mk (gpio_pin s) (wheel_circumference_m s) v (pulse_count s) (speed_kmh s).

Definition set_pulse_count (v : Z) (s : t) : t :=
  mk (gpio_pin s) (wheel_circumference_m s) (last_pulse_time s) v (speed_kmh s).

Definition set_speed_kmh (v : float) (s : t) : t :=
  mk (gpio_pin s) (wheel_circumference_m s) (last_pulse_time s) (pulse_count s) v.

(** [HallSensor(gpio_pin, wheel_circumference_m)], before any pulse. *)
Definition __init__ (pin : Z) (circumference : float) : t :=
  mk pin circumference 0 0%Z 0.0.

Definition _pulse_callback : M (World * t) unit :=
  let* current_time := time_time in
  let* s := self in
  when (gt (last_pulse_time s) 0)
    (let time_diff := current_time - last_pulse_time s in
     when (gt time_diff 0)
       (let* speed_ms := lift (truediv (wheel_circumference_m s) time_diff) in
        assign (set_speed_kmh (speed_ms * 3.6))));;
  assign (set_last_pulse_time current_time);;
  assign (fun s => set_pulse_count (pulse_count s + 1)%Z s).

Definition get_speed_kmh : M (World * t) float :=
  let* s := self in ret (speed_kmh s).

Definition get_pulse_count : M (World * t) Z :=
  let* s := self in ret (pulse_count s).

(** A run of pulses, one callback after the other. *)
Fixpoint pulses (n : nat) : M (World * t) unit :=
  match n with
  | O => ret tt
  | S k => _pulse_callback;; pulses k
  end.

End HallSensor.

(** ** [class SensorManager]

    The four channel objects are reached only through their read method, so
    a channel is the computation its read performs: it sees the world (the
    driver, the clock) and may raise. The class [HallSensor] gives one such
    channel. *)

Definition Channel (A : Type) : Type := M World A.

Definition hall_channel (h : HallSensor.t) : Channel float :=
  fun w => match HallSensor.get_speed_kmh (w, h) with
           | (r, (w', _)) => (r, w')
           end.

Module SensorManager.

Record t : Type := mk {
  statistics : StatisticsTracker.t;
  speed_offset : float;
  altitude_offset : float;
  temp_offset : float;
  sensor_errors : gmap string bool;
  last_successful_reads : gmap string float;
  error_timeout : float
}.

Definition set_statistics (v : StatisticsTracker.t) (s : t) : t :=
  mk v (speed_offset s) (altitude_offset s) (temp_offset s)
     (sensor_errors s) (last_successful_reads s) (error_timeout s).

Definition set_speed_offset (v : float) (s : t) : t :=
  mk (statistics s) v (altitude_offset s) (temp_offset s)
     (sensor_errors s) (last_successful_reads s) (error_timeout s).

Definition set_altitude_offset (v : float) (s : t) : t :=
  mk (statistics s) (speed_offset s) v (temp_offset s)
     (sensor_errors s) (last_successful_reads s) (error_timeout s).

Definition set_temp_offset (v : float) (s : t) : t :=
  mk (statistics s) (speed_offset s) (altitude_offset s) v
     (sensor_errors s) (last_successful_reads s) (error_timeout s).

(** [self.sensor_errors[name] = v] *)
Definition set_error (name : string) (v : bool) (s : t) : t :=
  mk (statistics s) (speed_offset s) (altitude_offset s) (temp_offset s)
     (<[name := v]> (sensor_errors s)) (last_successful_reads s)
     (error_timeout s).

(** [self.last_successful_reads[name] = v] *)
Definition set_last_successful_read (name : string) (v : float) (s : t) : t :=
  mk (statistics s) (speed_offset s) (altitude_offset s) (temp_offset s)
     (sensor_errors s) (<[name := v]> (last_successful_reads s))
     (error_timeout s).

(** A method of [self.statistics]. *)
Definition on_statistics {A} (c : M (World * StatisticsTracker.t) A)
  : M (World * t) A :=
  zoom statistics set_statistics c.

(** [SensorManager(...)]: the tracker on its default file, no offsets, every
    channel healthy as of the construction time. *)
Definition __init__ : M World t :=
  let* stats := StatisticsTracker.__init__ "data/statistics.json" in
  fun w =>
    let t_hall := now w in
    let t_baro := now (tick w) in
    let t_thermo := now (tick (tick w)) in
    let t_accel := now (tick (tick (tick w))) in
    (Ok (mk stats 0.0 0.0 0.0
            (<["accelerometer" := false]> (<["thermometer" := false]>
             (<["barometer" := false]> (<["hall" := false]> ∅))))
            (<["accelerometer" := t_accel]> (<["thermometer" := t_thermo]>
             (<["barometer" := t_baro]> (<["hall" := t_hall]> ∅))))
            5.0),
     tick (tick (tick (tick w)))).

Definition get_speed_kmh (hall_sensor : Channel float) : M (World * t) float :=
  try_except
    (let* raw := outside hall_sensor in
     let* s := self in
     let speed := max2 0.0 (raw + speed_offset s) in
     let* t_ok := time_time in
     assign (set_last_successful_read "hall" t_ok);;
     assign (set_error "hall" false);;
     on_statistics (StatisticsTracker.update_speed speed);;
     on_statistics (StatisticsTracker.update_distance speed);;
     ret speed)
    (fun _ =>
       assign (set_error "hall" true);;
       ret 0.0).

Definition get_altitude_m (barometer : Channel float) : M (World * t) float :=
  try_except
    (let* raw := outside barometer in
     let* s := self in
     let altitude := raw + altitude_offset s in
     let* t_ok := time_time in
     assign (set_last_successful_read "barometer" t_ok);;
     assign (set_error "barometer" false);;
     ret altitude)
    (fun _ =>
       assign (set_error "barometer" true);;
       ret 0.0).

Definition get_temperature_c (thermometer : Channel float) : M (World * t) float :=
  try_except
    (let* raw := outside thermometer in
     let* s := self in
     let temp := raw + temp_offset s in
     let* t_ok := time_time in
     assign (set_last_successful_read "thermometer" t_ok);;
     assign (set_error "thermometer" false);;
     ret temp)
    (fun _ =>
       assign (set_error "thermometer" true);;
       ret 25.0).

Definition get_acceleration_g (accelerometer : Channel (float * float * float))
  : M (World * t) (float * float * float) :=
  try_except
    (let* accel := outside accelerometer in
     let* t_ok := time_time in
     assign (set_last_successful_read "accelerometer" t_ok);;
     assign (set_error "accelerometer" false);;
     let '(x, y, z) := accel in
     on_statistics (StatisticsTracker.update_acceleration x y z);;
     ret accel)
    (fun _ =>
       assign (set_error "accelerometer" true);;
       ret (0.0, 0.0, 1.0)).

(** One entry of the status mapping. *)
Record status : Type := mk_status {
  healthy : bool;
  error : bool;
  time_since_last_read : float
}.

(** The loop runs over the keys of [sensor_errors] and indexes
    [last_successful_reads] with each: a key missing there is a [KeyError]. *)
Definition get_sensor_status : M (World * t) (gmap string status) :=
  let* current_time := time_time in
  let* s := self in
  if decide (dom (sensor_errors s) ⊆ dom (last_successful_reads s))
  then
    ret (map_imap
           (fun sensor_name errored =>
              last ← last_successful_reads s !! sensor_name;
              let time_since_last := current_time - last in
              let is_healthy :=
                negb errored && (time_since_last <? error_timeout s) in
              Some (mk_status is_healthy errored time_since_last))
           (sensor_errors s))
  else raise KeyError.

(** The status mapping computed in [w] has a healthy entry for [name]. *)
Definition reports_healthy (name : string) (w : World) (s : t) : Prop :=
  exists status entry,
    fst (get_sensor_status (w, s)) = Ok status /\
    status !! name = Some entry /\
    healthy entry = true.

Definition get_statistics : M (World * t) (gmap string float) :=
  on_statistics StatisticsTracker.get_statistics.

Definition reset_statistics : M (World * t) unit :=
  on_statistics StatisticsTracker.reset_statistics.

(** The fixed channel identifiers. *)
Definition channel_names : gset string :=
  {[ "hall"; "barometer"; "thermometer"; "accelerometer" ]}.

(** What the constructor sets up for good: the timeout, and both health
    dictionaries keyed by the four channels. *)
Definition well_formed (s : t) : Prop :=
  error_timeout s = 5.0 /\
  dom (sensor_errors s) = channel_names /\
  dom (last_successful_reads s) = channel_names.

(** What a successful read leaves on record for its channel: the flag
    cleared, the time noted. *)
Definition mark_success (name : string) (t_ok : float) (s : t) : t :=
  set_error name false (set_last_successful_read name t_ok s).

Definition calibrate_speed (hall_sensor : Channel float)
    (known_speed_kmh : float) : M (World * t) unit :=
  let* current_speed := outside hall_sensor in
  assign (set_speed_offset (known_speed_kmh - current_speed)).

Definition calibrate_altitude (barometer : Channel float)
    (known_altitude_m : float) : M (World * t) unit :=
  let* current_altitude := outside barometer in
  assign (set_altitude_offset (known_altitude_m - current_altitude)).

Definition calibrate_temperature (thermometer : Channel float)
    (known_temp_c : float) : M (World * t) unit :=
  let* current_temp := outside thermometer in
  assign (set_temp_offset (known_temp_c - current_temp)).

End SensorManager.

(** ** Signs of specified floats

    Neither a negative number nor minus infinity: what a square and a sum of
    squares always are. *)
Definition not_negative (f : SpecFloat.spec_float) : Prop :=
  match f with
  | SpecFloat.S754_infinity true | SpecFloat.S754_finite true _ _ => False
  | _ => True
  end.

(** ** Concrete worlds and objects *)

Module Demo.

(** A clock that starts at [t0] and gains [dt] at every reading. *)
Fixpoint clock_from (t0 dt : float) (n : nat) : float :=
  match n with
  | O => t0
  | S k => clock_from (t0 + dt) dt k
  end.

(** A clock that stands still. *)
Definition frozen (t0 : float) : nat -> float := fun _ => t0.

(** No statistics file yet, a writable disk, a quarter of a second between
    two readings of the clock. *)
Definition first_run : World := mkWorld (clock_from 1000.0 0.25) 0 ∅ true.

Definition stopped : World := mkWorld (frozen 1000.0) 0 ∅ true.

(** A tracker as the constructor leaves it when there is no file. *)
Definition fresh : StatisticsTracker.t :=
  StatisticsTracker.mk "data/statistics.json" 0.0 0.0 0.0 0.0 1000.0 1000.25.

(** A tracker in the middle of a session. *)
Definition driven : StatisticsTracker.t :=
  StatisticsTracker.mk "data/statistics.json" 42.5 3.25 0.75 0.5 900.0 999.0.


(** A coordinator some time after its construction. *)
Definition manager : SensorManager.t :=
  SensorManager.mk driven 0.0 0.0 0.0
    (<["accelerometer" := false]> (<["thermometer" := false]>
     (<["barometer" := false]> (<["hall" := false]> ∅))))
    (<["accelerometer" := 999.5]> (<["thermometer" := 999.5]>
     (<["barometer" := 999.5]> (<["hall" := 999.5]> ∅))))
    5.0.

(** A channel whose driver fails. *)
Definition broken {A : Type} : Channel A := raise HardwareError.

End Demo.

(** ** Further notions about the tracker *)

Module TrackerNotions.

(** The three maxima hold numbers, not NaN. *)
Definition numbers (s : StatisticsTracker.t) : Prop :=
  is_nan (StatisticsTracker.max_speed_kmh s) = false /\
  is_nan (StatisticsTracker.max_cornering_force_g s) = false /\
  is_nan (StatisticsTracker.max_braking_force_g s) = false.

(** The same world with another answer to [open(path, 'w')]. *)
Definition with_writable (b : bool) (w : World) : World :=
  mkWorld (clock w) (ticks w) (disk w) b.

End TrackerNotions.

Module Demo2.

(** A disk that refuses every write. *)
Definition read_only : World :=
  TrackerNotions.with_writable false Demo.first_run.

(** A statistics file that lacks two of its keys. *)
Definition partial_file : World :=
  mkWorld (Demo.clock_from 2000.0 0.25) 0
    (<["data/statistics.json" :=
         Json (<["max_speed_kmh" := 31.5]>
              (<["max_braking_force_g" := 0.25]> ∅))]> ∅)
    true.

End Demo2.

(** ** The calls a coordinator takes

    The display layer polls the accessors, the status and the statistics and
    may reset them; the calibrations are the remaining public methods. *)

Module Requests.

Inductive request : Type :=
  | GetSpeed (hall : Channel float)
  | GetAltitude (barometer : Channel float)
  | GetTemperature (thermometer : Channel float)
  | GetAcceleration (accelerometer : Channel (float * float * float))
  | GetSensorStatus
  | GetStatistics
  | ResetStatistics
  | CalibrateSpeed (hall : Channel float) (known_speed_kmh : float)
  | CalibrateAltitude (barometer : Channel float) (known_altitude_m : float)
  | CalibrateTemperature (thermometer : Channel float) (known_temp_c : float).

(** The calls the display layer makes. *)
Definition polled (r : request) : bool :=
  match r with
  | CalibrateSpeed _ _ | CalibrateAltitude _ _ | CalibrateTemperature _ _ => false
  | _ => true
  end.

(** The value a call returns is dropped. *)
Definition discard {S A} (c : M S A) : M S unit :=
  bind c (fun _ => ret tt).

Definition serve (r : request) : M (World * SensorManager.t) unit :=
  match r with
  | GetSpeed hall => discard (SensorManager.get_speed_kmh hall)
  | GetAltitude barometer => discard (SensorManager.get_altitude_m barometer)
  | GetTemperature thermometer =>
      discard (SensorManager.get_temperature_c thermometer)
  | GetAcceleration accelerometer =>
      discard (SensorManager.get_acceleration_g accelerometer)
  | GetSensorStatus => discard SensorManager.get_sensor_status
  | GetStatistics => discard SensorManager.get_statistics
  | ResetStatistics => SensorManager.reset_statistics
  | CalibrateSpeed hall k => SensorManager.calibrate_speed hall k
  | CalibrateAltitude barometer k => SensorManager.calibrate_altitude barometer k
  | CalibrateTemperature thermometer k =>
      SensorManager.calibrate_temperature thermometer k
  end.


End Requests.

(** ** The driver-backed channels

    [math.sin] and [math.cos] are the platform's; they are parameters here.
    Both raise [ValueError] on an infinite argument. A driver is the
    computation its read performs. [HAS_I2C] and the outcome of the driver's
    construction are arguments of the constructors. *)

Definition math_sin (sin : float -> float) (x : float) : result float :=
  if is_infinity x then Raise ValueError else Ok (sin x).

Definition math_cos (cos : float -> float) (x : float) : result float :=
  if is_infinity x then Raise ValueError else Ok (cos x).

Module SensorReading.

Record t : Type := mk {
  value : float;
  timestamp : float;
  unit : string
}.

End SensorReading.

Module Barometer.

Record t : Type := mk {
  sea_level_pressure : float;
  sensor : option (Channel float);
  last_reading : SensorReading.t
}.

Definition set_last_reading (v : SensorReading.t) (s : t) : t :=
  mk (sea_level_pressure s) (sensor s) v.

Definition __init__ (has_i2c : bool) (driver : result (Channel float))
    (pressure : float) : t :=
  mk pressure
     (if has_i2c
      then match driver with Ok d => Some d | Raise _ => None end
      else None)
     (SensorReading.mk 0.0 0.0 "m").

Definition get_altitude_m (sin : float -> float) : M (World * t) float :=
  let* s := self in
  match sensor s with
  | Some driver =>
      try_except
        (let* altitude := outside driver in
         let* t_read := time_time in
         assign (set_last_reading (SensorReading.mk altitude t_read "m"));;
         ret altitude)
        (fun _ =>
           let* s := self in
           ret (SensorReading.value (last_reading s)))
  | None =>
      let base_altitude := 120.0 in
      let* t_now := time_time in
      let* wave := lift (math_sin sin (t_now * 0.1)) in
      let variation := wave * 5.0 in
      ret (base_altitude + variation)
  end.

(** The channel a barometer in state [b] is to the coordinator. *)
Definition channel (sin : float -> float) (b : t) : Channel float :=
  fun w => match get_altitude_m sin (w, b) with
           | (r, (w', _)) => (r, w')
           end.

End Barometer.

Module Thermometer.

Record t : Type := mk {
  sensor : option (Channel float);
  last_reading : SensorReading.t
}.

Definition set_last_reading (v : SensorReading.t) (s : t) : t :=
  mk (sensor s) v.

Definition __init__ (has_i2c : bool) (driver : result (Channel float)) : t :=
  mk (if has_i2c
      then match driver with Ok d => Some d | Raise _ => None end
      else None)
     (SensorReading.mk 25.0 0.0 "°C").

Definition get_temperature_c (sin : float -> float) : M (World * t) float :=
  let* s := self in
  match sensor s with
  | Some driver =>
      try_except
        (let* temp := outside driver in
         let* t_read := time_time in
         assign (set_last_reading (SensorReading.mk temp t_read "°C"));;
         ret temp)
        (fun _ =>
           let* s := self in
           ret (SensorReading.value (last_reading s)))
  | None =>
      let base_temp := 25.0 in
      let* t_now := time_time in
      let* wave := lift (math_sin sin (t_now * 0.05)) in
      let variation := wave * 2.0 in
      ret (base_temp + variation)
  end.

Definition channel (sin : float -> float) (s : t) : Channel float :=
  fun w => match get_temperature_c sin (w, s) with
           | (r, (w', _)) => (r, w')
           end.

End Thermometer.

Module Accelerometer.

Record t : Type := mk {
  sensor : option (Channel (float * float * float));
  last_reading : SensorReading.t
}.

Definition __init__ (has_i2c : bool)
    (driver : result (Channel (float * float * float))) : t :=
  mk (if has_i2c
      then match driver with Ok d => Some d | Raise _ => None end
      else None)
     (SensorReading.mk 0.0 0.0 "g").

Definition get_acceleration_g (sin cos : float -> float)
  : M (World * t) (float * float * float) :=
  let* s := self in
  match sensor s with
  | Some driver =>
      try_except
        (let* accel := outside driver in
         let '(a0, a1, a2) := accel in
         let* x_g := lift (truediv a0 9.81) in
         let* y_g := lift (truediv a1 9.81) in
         let* z_g := lift (truediv a2 9.81) in
         ret (x_g, y_g, z_g))
        (fun _ => ret (0.0, 0.0, 1.0))
  | None =>
      let* t_now := time_time in
      let* sx := lift (math_sin sin (t_now * 0.5)) in
      let x := 0.1 * sx in
      let* cy := lift (math_cos cos (t_now * 0.3)) in
      let y := 0.05 * cy in
      let* sz := lift (math_sin sin (t_now * 0.2)) in
      let z := 1.0 + 0.02 * sz in
      ret (x, y, z)
  end.

Definition channel (sin cos : float -> float) (s : t)
  : Channel (float * float * float) :=
  fun w => match get_acceleration_g sin cos (w, s) with
           | (r, (w', _)) => (r, w')
           end.

End Accelerometer.

Module Demo3.

(** A driver that answers 118.5 once the bus works. *)
Definition steady : Channel float := ret 118.5.

Definition barometer : Barometer.t :=
  Barometer.__init__ true (Ok steady) 1013.25.

Definition failing_barometer : Barometer.t :=
  Barometer.__init__ true (Ok Demo.broken) 1013.25.

Definition failing_accelerometer : Accelerometer.t :=
  Accelerometer.__init__ true (Ok Demo.broken).

End Demo3.

(** ** [class DarkRideDashboard]: the pages

    A page is a frame that is placed or not; [_pages] maps the page number
    to that state. The constructor makes the grid page 0 and one page for
    each of the five detail views, then shows page 0. *)

Module Pages.

Record t : Type := mk {
  _pages : gmap Z bool;
  _current_page_idx : Z
}.

Definition _show_page (idx : Z) : M t unit :=
  fun s =>
    let hidden := (fun _ : bool => false) <$> _pages s in
    match _pages s !! idx with
    | None => (Ok tt, mk hidden (_current_page_idx s))
    | Some _ => (Ok tt, mk (<[idx := true]> hidden) idx)
    end.

(** [event] is [None] for a call without one (the right-arrow key), else
    whether the click landed on the reset button. [%] by an empty dictionary's
    length would raise. *)
Definition _cycle_page (event : option bool) : M t unit :=
  match event with
  | Some true => ret tt
  | _ =>
      let* s := gets (fun s => s) in
      let count := Z.of_nat (size (_pages s)) in
      if (count =? 0)%Z then raise ZeroDivisionError
      else
        let next_idx := ((_current_page_idx s + 1) mod count)%Z in
        _show_page next_idx
  end.

(** The pages as the constructor leaves them. *)
Definition __init__ : t :=
  snd (_show_page 0
         (mk (<[5%Z := false]> (<[4%Z := false]> (<[3%Z := false]>
              (<[2%Z := false]> (<[1%Z := false]> (<[0%Z := false]> ∅))))))
             0)).

(** A run of clicks. *)
Fixpoint clicks (events : list (option bool)) : M t unit :=
  match events with
  | [] => ret tt
  | e :: rest => _cycle_page e;; clicks rest
  end.

(** The six pages with exactly page [p] placed. *)
Definition showing (p : Z) : t :=
  mk (<[5%Z := bool_decide (p = 5%Z)]> (<[4%Z := bool_decide (p = 4%Z)]>
      (<[3%Z := bool_decide (p = 3%Z)]> (<[2%Z := bool_decide (p = 2%Z)]>
      (<[1%Z := bool_decide (p = 1%Z)]> (<[0%Z := bool_decide (p = 0%Z)]> ∅))))))
     p.

(** The clicks that turn the page: all but those on the reset button. *)
Definition turns (events : list (option bool)) : Z :=
  Z.of_nat (length (List.filter
                      (fun e => match e with Some true => false | _ => true end)
                      events)).

End Pages.

(** ** [class DarkRideDashboard]: the periodic update

    The display keeps the callables it was given and a set of Tk string
    variables, here the text each one holds. Number formatting
    ([f"{x:0.1f}"]), [str] of an exception and the drawing of the speed
    canvas are Python's and Tk's: they are parameters, and the drawing may
    do to the display whatever it does, raising included. [StringVar.set]
    does not fail. The attributes the constructor always creates
    ([detail_vars], [stats_vars], [speed_canvas]) are taken to exist. *)

Module Display.

Record t : Type := mk {
  metric_cards : gmap string string;
  detail_vars : gmap string string;
  stats_vars : gmap string string;
  _last_speed_value : option float;
  _last_speed_text : option string;
  status_var : string;
  pending : list (Z * string)   (* [after(ms, ...)]: texts due for [status_var] *)
}.

Definition set_metric_cards (v : gmap string string) (s : t) : t :=
  mk v (detail_vars s) (stats_vars s) (_last_speed_value s)
     (_last_speed_text s) (status_var s) (pending s).

Definition set_detail_vars (v : gmap string string) (s : t) : t :=
  mk (metric_cards s) v (stats_vars s) (_last_speed_value s)
     (_last_speed_text s) (status_var s) (pending s).

Definition set_stats_vars (v : gmap string string) (s : t) : t :=
  mk (metric_cards s) (detail_vars s) v (_last_speed_value s)
     (_last_speed_text s) (status_var s) (pending s).

Definition set_last_speed (value : float) (text : string) (s : t) : t :=
  mk (metric_cards s) (detail_vars s) (stats_vars s) (Some value)
     (Some text) (status_var s) (pending s).

Definition set_status_var (v : string) (s : t) : t :=
  mk (metric_cards s) (detail_vars s) (stats_vars s) (_last_speed_value s)
     (_last_speed_text s) v (pending s).

Definition set_pending (v : list (Z * string)) (s : t) : t :=
  mk (metric_cards s) (detail_vars s) (stats_vars s) (_last_speed_value s)
     (_last_speed_text s) (status_var s) v.

Record callbacks (G : Type) : Type := mk_callbacks {
  get_speed : M G float;
  get_altitude : M G float;
  get_temperature : M G float;
  get_accel : M G (float * float * float);
  get_sensor_status : M G (list (string * SensorManager.status));
  get_data_source : M G string;
  get_statistics : M G (gmap string float);
  reset_statistics : M G unit
}.
Arguments mk_callbacks {G}.
Arguments get_speed {G}.
Arguments get_altitude {G}.
Arguments get_temperature {G}.
Arguments get_accel {G}.
Arguments get_sensor_status {G}.
Arguments get_data_source {G}.
Arguments get_statistics {G}.
Arguments reset_statistics {G}.

Record toolkit : Type := mk_toolkit {
  format : nat -> float -> string;
  str : exn -> string;
  _redraw_speed_canvas : M t unit
}.

(** [d[key]] *)
Definition item {A} (d : gmap string A) (key : string) : result A :=
  match d !! key with
  | Some v => Ok v
  | None => Raise KeyError
  end.

Section Methods.
Context {G : Type}.

(** A call of one of the stored callables. *)
Definition call {A} (c : M G A) : M (G * t) A :=
  fun s => match c (fst s) with
           | (r, g') => (r, (g', snd s))
           end.

(** Something the display does to itself. *)
Definition own {A} (c : M t A) : M (G * t) A :=
  fun s => match c (snd s) with
           | (r, d') => (r, (fst s, d'))
           end.

(** [vars[key].set(text)] *)
Definition set_var (get : t -> gmap string string)
    (set : gmap string string -> t -> t) (key text : string)
  : M (G * t) unit :=
  fun s => match get (snd s) !! key with
           | Some _ => (Ok tt, (fst s, set (<[key := text]> (get (snd s))) (snd s)))
           | None => (Raise KeyError, s)
           end.

(** [if key in self.detail_vars: self.detail_vars[key].set(text)] *)
Definition set_detail_if_present (key text : string) : M (G * t) unit :=
  let* s := gets snd in
  match detail_vars s !! key with
  | Some _ => set_var detail_vars set_detail_vars key text
  | None => ret tt
  end.

Definition _update_statistics (cb : callbacks G) (tk : toolkit)
  : M (G * t) unit :=
  try_except
    (let* stats := call (get_statistics cb) in
     let* max_speed_kmh := lift (item stats "max_speed_kmh") in
     let max_speed_mph := max_speed_kmh * 0.621371 in
     set_var stats_vars set_stats_vars "max_speed" (format tk 1 max_speed_mph);;
     let* total_distance_km := lift (item stats "total_distance_km") in
     set_var stats_vars set_stats_vars "total_distance"
       (format tk 2 total_distance_km);;
     let* max_cornering_force_g := lift (item stats "max_cornering_force_g") in
     set_var stats_vars set_stats_vars "max_cornering"
       (format tk 2 max_cornering_force_g);;
     let* max_braking_force_g := lift (item stats "max_braking_force_g") in
     set_var stats_vars set_stats_vars "max_braking"
       (format tk 2 max_braking_force_g);;
     let* session_duration_hours := lift (item stats "session_duration_hours") in
     set_var stats_vars set_stats_vars "session_time"
       (format tk 1 session_duration_hours))
    (fun _ => ret tt).

(** The names of the channels that are not healthy, in the order of the
    status dictionary. *)
Definition failed_sensors (sensor_status : list (string * SensorManager.status))
  : list string :=
  map fst (List.filter (fun entry => negb (SensorManager.healthy (snd entry)))
             sensor_status).

Definition status_line (sensor_status : list (string * SensorManager.status))
  : string :=
  match failed_sensors sensor_status with
  | [] => "Systems nominal"
  | failed => "Sensor errors: " +:+ String.concat ", " failed
  end.

Definition _update_metrics (cb : callbacks G) (tk : toolkit)
  : M (G * t) unit :=
  try_except
    (let* speed := call (get_speed cb) in
     let* altitude := call (get_altitude cb) in
     let* temperature := call (get_temperature cb) in
     let* accel := call (get_accel cb) in
     let '(ax, ay, az) := accel in
     let speed_mph := speed * 0.621371 in
     let accel_text :=
       format tk 2 ax +:+ ", " +:+ format tk 2 ay +:+ ", " +:+ format tk 2 az in
     set_var metric_cards set_metric_cards "speed" (format tk 1 speed_mph);;
     set_var metric_cards set_metric_cards "altitude" (format tk 0 altitude);;
     set_var metric_cards set_metric_cards "temperature"
       (format tk 1 temperature);;
     set_var metric_cards set_metric_cards "accel" accel_text;;
     set_detail_if_present "speed" (format tk 1 speed_mph);;
     set_detail_if_present "altitude" (format tk 0 altitude);;
     set_detail_if_present "temperature" (format tk 1 temperature);;
     set_detail_if_present "accel" accel_text;;
     own (modify (set_last_speed speed_mph (format tk 1 speed_mph)));;
     own (_redraw_speed_canvas tk);;
     _update_statistics cb tk;;
     let* sensor_status := call (get_sensor_status cb) in
     own (modify (set_status_var (status_line sensor_status))))
    (fun exc => own (modify (set_status_var ("Error: " +:+ str tk exc)))).

Definition _reset_statistics (cb : callbacks G) (tk : toolkit)
  : M (G * t) unit :=
  call (reset_statistics cb);;
  _update_statistics cb tk;;
  own (modify (set_status_var "Statistics reset successfully!"));;
  own (modify (fun s => set_pending (pending s ++ [(3000%Z, "Systems nominal")]) s)).

End Methods.

(** The variables as the constructor creates them: every card, detail and
    statistic shows ["-"]; the speed page has a canvas instead of a detail
    variable. *)
Definition __init__ : t :=
  mk (<["accel" := "-"]> (<["temperature" := "-"]>
      (<["altitude" := "-"]> (<["speed" := "-"]> ∅))))
     (<["accel" := "-"]> (<["temperature" := "-"]> (<["altitude" := "-"]> ∅)))
     (<["session_time" := "-"]> (<["max_braking" := "-"]>
      (<["max_cornering" := "-"]> (<["total_distance" := "-"]>
      (<["max_speed" := "-"]> ∅)))))
     None None "Systems nominal" [].

End Display.

Module DisplayNotions.

(** The four metric cards exist. *)
Definition ready (d : Display.t) : Prop :=
  is_Some (Display.metric_cards d !! "speed") /\
  is_Some (Display.metric_cards d !! "altitude") /\
  is_Some (Display.metric_cards d !! "temperature") /\
  is_Some (Display.metric_cards d !! "accel").

(** The drawing of the speed canvas comes back. *)
Definition draws (tk : Display.toolkit) : Prop :=
  forall d, fst (Display._redraw_speed_canvas tk d) = Ok tt.

End DisplayNotions.

(** ** [main]: the display wired to a coordinator

    [get_sensor_status] returns a dictionary whose keys come in the order the
    constructor of the coordinator put them in: that order is what [items()]
    follows. [HAS_GPIO] and [HAS_I2C] are arguments. *)

Module Main.

Definition channel_order : list string :=
  ["hall"; "barometer"; "thermometer"; "accelerometer"].

Definition items (status : gmap string SensorManager.status)
  : list (string * SensorManager.status) :=
  omap (fun name => (fun entry => (name, entry)) <$> status !! name)
       channel_order.

(** [SensorManager.get_data_source] *)
Definition get_data_source (has_gpio has_i2c : bool) : string :=
  if has_gpio && has_i2c then "Real Sensors" else "Demo Mode".

(** The eight bound methods [main] hands to [run_dashboard]. *)
Definition wired (has_gpio has_i2c : bool)
    (hall barometer thermometer : Channel float)
    (accelerometer : Channel (float * float * float))
  : Display.callbacks (World * SensorManager.t) :=
  Display.mk_callbacks
    (SensorManager.get_speed_kmh hall)
    (SensorManager.get_altitude_m barometer)
    (SensorManager.get_temperature_c thermometer)
    (SensorManager.get_acceleration_g accelerometer)
    (let* status := SensorManager.get_sensor_status in ret (items status))
    (ret (get_data_source has_gpio has_i2c))
    SensorManager.get_statistics
    SensorManager.reset_statistics.


(** The five statistics variables exist. *)
Definition statistics_ready (d : Display.t) : Prop :=
  is_Some (Display.stats_vars d !! "max_speed") /\
  is_Some (Display.stats_vars d !! "total_distance") /\
  is_Some (Display.stats_vars d !! "max_cornering") /\
  is_Some (Display.stats_vars d !! "max_braking") /\
  is_Some (Display.stats_vars d !! "session_time").

(** A toolkit for examples: two fixed renderings, a drawing that does
    nothing. *)
Definition plain : Display.toolkit :=
  Display.mk_toolkit (fun _ x => if x =? 0 then "0" else "n")
                     (fun _ => "failure") (ret tt).

End Main.

(** ** [class DemoSensors] of [main.py]

    The simulated speed. [random.uniform] is the platform's: the number it
    draws is an argument. *)

Module DemoSensors.

Record t : Type := mk { _t0 : float }.

Definition __init__ : M World t :=
  fun w => (Ok (mk (now w)), tick w).

Definition _t : M (World * t) float :=
  let* t_now := time_time in
  let* s := self in
  ret (t_now - _t0 s).

Definition speed_kmh (sin : float -> float) (noise : float)
  : M (World * t) float :=
  let* t := _t in
  let* wave := lift (math_sin sin (t * 0.35)) in
  let base := (wave + 1) * 21.0 in
  ret (max2 0.0 (base + noise)).

End DemoSensors.

(** * Facts about binary64 arithmetic

    Each follows from the specification of the primitive operations on
    [spec_float]. *)

Module FloatFacts.

Import SpecFloat.

(** ** The order *)

Ltac compare_cases :=
  repeat match goal with
  | |- context [Z.compare ?a ?b] => destruct (Z.compare_spec a b)
  | H : context [Z.compare ?a ?b] |- _ => destruct (Z.compare_spec a b)
  | |- context [Pos.compare_cont Eq ?a ?b] =>
      change (Pos.compare_cont Eq a b) with (Pos.compare a b);
      destruct (Pos.compare_spec a b)
  | H : context [Pos.compare_cont Eq ?a ?b] |- _ =>
      change (Pos.compare_cont Eq a b) with (Pos.compare a b) in H;
      destruct (Pos.compare_spec a b)
  end.

Ltac sf_order :=
  unfold SFltb, SFleb, SFeqb, SFcompare;
  repeat match goal with
  | x : spec_float |- _ => destruct x as [[]|[]| |[] ? ?]
  end;
  simpl; try congruence; try reflexivity; intros;
  compare_cases; simpl in *; subst; try congruence; try lia.

Lemma SFltb_trans x y z :
  SFltb x y = true -> SFltb y z = true -> SFltb x z = true.
Proof. sf_order. Qed.

Lemma SFltb_SFleb x y : SFltb x y = true -> SFleb x y = true.
Proof. sf_order. Qed.

Lemma SFleb_not_SFltb x y : SFleb x y = true -> SFltb y x = false.
Proof. sf_order. Qed.

Lemma SFeqb_not_SFltb x y : SFeqb x y = true -> SFltb y x = false.
Proof. sf_order. Qed.

Lemma SFleb_refl x : x <> S754_nan -> SFleb x x = true.
Proof. sf_order. Qed.

Lemma SFeqb_refl x : x <> S754_nan -> SFeqb x x = true.
Proof. sf_order. Qed.

Lemma SFleb_trans x y z :
  SFleb x y = true -> SFleb y z = true -> SFleb x z = true.
Proof. sf_order. Qed.

Lemma SFltb_not_nan x y : SFltb x y = true -> x <> S754_nan /\ y <> S754_nan.
Proof. sf_order; split; congruence. Qed.

(** [y] is not below [x], and [z] is above [y]: [x] is not above [z]. *)
Lemma SFltb_bound_step x y z :
  SFltb y x = false -> SFltb y z = true -> SFltb z x = false.
Proof. sf_order. Qed.

(** [x] is at most [y] (and a number), and [y] is below [z]. *)
Lemma SFltb_below_step x y z :
  SFltb y x = false -> x <> S754_nan -> SFltb y z = true -> SFltb x z = true.
Proof. sf_order. Qed.

Lemma ltb_trans (x y z : float) :
  (x <? y) = true -> (y <? z) = true -> (x <? z) = true.
Proof. rewrite !FloatAxioms.ltb_spec. apply SFltb_trans. Qed.

Lemma ltb_leb (x y : float) : (x <? y) = true -> (x <=? y) = true.
Proof. rewrite FloatAxioms.ltb_spec, FloatAxioms.leb_spec. apply SFltb_SFleb. Qed.

Lemma leb_not_ltb (x y : float) : (x <=? y) = true -> (y <? x) = false.
Proof.
  rewrite FloatAxioms.ltb_spec, FloatAxioms.leb_spec. apply SFleb_not_SFltb.
Qed.

Lemma eqb_not_ltb (x y : float) : (x =? y) = true -> (y <? x) = false.
Proof.
  rewrite FloatAxioms.ltb_spec, FloatAxioms.eqb_spec. apply SFeqb_not_SFltb.
Qed.

Lemma leb_refl (x : float) : is_nan x = false -> (x <=? x) = true.
Proof.
  unfold is_nan. rewrite FloatAxioms.leb_spec, FloatAxioms.eqb_spec.
  intros H. apply SFleb_refl. intros E. rewrite E in H. discriminate.
Qed.

Lemma leb_trans (x y z : float) :
  (x <=? y) = true -> (y <=? z) = true -> (x <=? z) = true.
Proof. rewrite !FloatAxioms.leb_spec. apply SFleb_trans. Qed.

Lemma ltb_is_nan (x y : float) :
  (x <? y) = true -> is_nan x = false /\ is_nan y = false.
Proof.
  unfold is_nan. rewrite FloatAxioms.ltb_spec, !FloatAxioms.eqb_spec.
  intros H. destruct (SFltb_not_nan _ _ H) as [Hx Hy].
  rewrite !SFeqb_refl by assumption. split; reflexivity.
Qed.

Lemma is_nan_not_ltb (x y : float) : is_nan x = true -> (y <? x) = false.
Proof.
  intros H. destruct (y <? x) eqn:E; [|reflexivity].
  apply ltb_is_nan in E. destruct E as [_ E]. congruence.
Qed.

Lemma ltb_bound_step (x y z : float) :
  (y <? x) = false -> (y <? z) = true -> (z <? x) = false.
Proof. rewrite !FloatAxioms.ltb_spec. apply SFltb_bound_step. Qed.

Lemma ltb_below_step (x y z : float) :
  (y <? x) = false -> is_nan x = false -> (y <? z) = true -> (x <? z) = true.
Proof.
  unfold is_nan. rewrite !FloatAxioms.ltb_spec, FloatAxioms.eqb_spec.
  intros H1 H2. apply SFltb_below_step; [exact H1|].
  intros E. rewrite E in H2. discriminate.
Qed.

(** ** Signs *)

Lemma binary_round_aux_not_negative m e l :
  not_negative (binary_round_aux prec emax false m e l).
Proof.
  unfold binary_round_aux.
  destruct (shr_fexp prec emax m e l) as [mrs' e'].
  destruct (shr_fexp prec emax _ e' loc_Exact) as [mrs'' e''].
  destruct (shr_m mrs''); simpl; auto.
  destruct (Z.leb _ _); simpl; auto.
Qed.

Lemma SFmul_self_not_negative x : not_negative (SF64mul x x).
Proof.
  destruct x as [s|s| |s m e]; unfold SF64mul, SFmul;
    rewrite ?xorb_nilpotent; simpl; auto.
  apply binary_round_aux_not_negative.
Qed.

Lemma SFadd_not_negative x y :
  not_negative x -> not_negative y -> not_negative (SF64add x y).
Proof.
  destruct x as [[]|[]| |[] mx ex], y as [[]|[]| |[] my ey];
    simpl; auto; try tauto.
  intros _ _. unfold SF64add, SFadd. simpl. unfold binary_round.
  destruct (shl_align _ _ _) as [mz ez]. apply binary_round_aux_not_negative.
Qed.

Lemma not_negative_SFltb x : not_negative x -> SFltb x (S754_zero false) = false.
Proof. destruct x as [[]|[]| |[] mx ex]; simpl; auto; tauto. Qed.

(** A sum of two squares is never below zero. *)
Lemma sum_of_squares_not_negative (x y : float) : (x * x + y * y <? 0) = false.
Proof.
  rewrite FloatAxioms.ltb_spec, FloatAxioms.add_spec, !FloatAxioms.mul_spec.
  change (Prim2SF 0) with (S754_zero false).
  apply not_negative_SFltb, SFadd_not_negative; apply SFmul_self_not_negative.
Qed.

(** ** Exact cases of subtraction and addition *)

Lemma finite_cases (x : float) :
  is_finite x = true ->
  (exists s, Prim2SF x = S754_zero s) \/
  (exists s m e, Prim2SF x = S754_finite s m e).
Proof.
  unfold is_finite, is_nan, is_infinity.
  rewrite !FloatAxioms.eqb_spec, FloatAxioms.abs_spec.
  change (Prim2SF infinity) with (S754_infinity false).
  destruct (Prim2SF x) as [s|s| |s m e]; simpl; eauto; try discriminate.
  destruct s; discriminate.
Qed.

Lemma SFsub_diag x :
  (exists s, x = S754_zero s) \/ (exists s m e, x = S754_finite s m e) ->
  SF64sub x x = S754_zero false.
Proof.
  intros [[s ->]|(s & m & e & ->)].
  - destruct s; reflexivity.
  - unfold SF64sub, SFsub. rewrite Z.sub_diag. reflexivity.
Qed.

(** A finite number minus itself is [+0.0]. *)
Lemma sub_diag (x : float) : is_finite x = true -> x - x = 0.
Proof.
  intros H. apply Prim2SF_inj. rewrite FloatAxioms.sub_spec.
  rewrite SFsub_diag by (apply finite_cases; exact H). reflexivity.
Qed.

(** Taking [+0.0] away from a positive number and adding it back to [+0.0]
    changes nothing. *)
Lemma zero_add_sub_zero (k : float) : (0 <? k) = true -> 0 + (k - 0) = k.
Proof.
  rewrite FloatAxioms.ltb_spec. intros H. apply Prim2SF_inj.
  rewrite FloatAxioms.add_spec, FloatAxioms.sub_spec.
  change (Prim2SF 0) with (S754_zero false) in *.
  destruct (Prim2SF k) as [[]|[]| |[] m e]; try discriminate; reflexivity.
Qed.

End FloatFacts.

(** * The running maximum [fold_left max2] *)

Module RunningMax.

Import FloatFacts.

Lemma ltb_irrefl (x : float) : (x <? x) = false.
Proof.
  destruct (x <? x) eqn:E; [|reflexivity].
  pose proof (ltb_leb _ _ E) as L. apply leb_not_ltb in L. congruence.
Qed.

Lemma max2_cases (a v : float) :
  ((a <? v) = true /\ max2 a v = v) \/ ((a <? v) = false /\ max2 a v = a).
Proof. unfold max2, gt. destruct (a <? v); auto. Qed.

Lemma from_nan (vs : list float) (b : float) :
  is_nan b = true -> fold_left max2 vs b = b.
Proof.
  induction vs as [|v vs IH]; intros H; simpl; [reflexivity|].
  destruct (max2_cases b v) as [[L _]|[_ ->]]; [|auto].
  apply ltb_is_nan in L. destruct L. congruence.
Qed.

Lemma keeps_number (vs : list float) (a : float) :
  is_nan a = false -> is_nan (fold_left max2 vs a) = false.
Proof.
  revert a. induction vs as [|v vs IH]; intros a H; simpl; [exact H|].
  apply IH. destruct (max2_cases a v) as [[L ->]|[_ ->]]; [|exact H].
  apply ltb_is_nan in L. tauto.
Qed.

(** What the start is not below, the result is not below either. *)
Lemma not_below (vs : list float) (b x : float) :
  (b <? x) = false -> (fold_left max2 vs b <? x) = false.
Proof.
  revert b. induction vs as [|v vs IH]; intros b H; simpl; [exact H|].
  apply IH. destruct (max2_cases b v) as [[L ->]|[_ ->]]; [|exact H].
  exact (ltb_bound_step _ _ _ H L).
Qed.

Lemma upper_bound (vs : list float) (a x : float) :
  In x vs -> gt x (fold_left max2 vs a) = false.
Proof.
  unfold gt. revert a. induction vs as [|v vs IH]; intros a; simpl; [tauto|].
  intros [->|Hin]; [|auto].
  apply not_below. destruct (max2_cases a x) as [[_ ->]|[L ->]];
    [apply ltb_irrefl|exact L].
Qed.

Lemma attained (vs : list float) (a : float) :
  fold_left max2 vs a = a \/ In (fold_left max2 vs a) vs.
Proof.
  revert a. induction vs as [|v vs IH]; intros a; simpl; [auto|].
  destruct (IH (max2 a v)) as [E|Hin]; [|auto].
  rewrite E. destruct (max2_cases a v) as [[_ ->]|[_ ->]]; auto.
Qed.

Lemma grows (vs : list float) (a : float) :
  is_nan a = false -> (a <=? fold_left max2 vs a) = true.
Proof.
  revert a. induction vs as [|v vs IH]; intros a H; simpl.
  - apply leb_refl, H.
  - destruct (max2_cases a v) as [[L ->]|[_ ->]]; [|auto].
    apply leb_trans with v; [apply ltb_leb, L|].
    apply IH. apply ltb_is_nan in L. tauto.
Qed.

(** Two starts, the second not above the first, give the same result as
    soon as the result from the second is above the first. *)
Lemma from_lower (vs : list float) (a b : float) :
  (a <? b) = false -> (a <? fold_left max2 vs b) = true ->
  fold_left max2 vs a = fold_left max2 vs b.
Proof.
  revert b. induction vs as [|v vs IH]; intros b Hab H; simpl in *;
    [congruence|].
  destruct (max2_cases a v) as [[L ->]|[L ->]].
  - destruct (is_nan b) eqn:Hb.
    + assert (E : max2 b v = b).
      { destruct (max2_cases b v) as [[L' _]|[_ E]]; [|exact E].
        apply ltb_is_nan in L'. destruct L'. congruence. }
      rewrite E, from_nan in H by exact Hb.
      apply ltb_is_nan in H. destruct H. congruence.
    + pose proof (ltb_below_step _ _ _ Hab Hb L) as L'.
      unfold max2, gt. rewrite L'. reflexivity.
  - apply IH; [|exact H].
    destruct (max2_cases b v) as [[_ ->]|[_ ->]]; assumption.
Qed.

Lemma agrees_with_maximum (vs : list float) (m : float) :
  maximum vs = Some m -> (0 <? m) = true -> fold_left max2 vs 0 = m.
Proof.
  destruct vs as [|v vs]; simpl; [discriminate|].
  intros [= <-] H.
  destruct (max2_cases 0 v) as [[_ ->]|[L ->]]; [reflexivity|].
  apply from_lower; assumption.
Qed.

End RunningMax.

Module TrackerFacts.

Import StatisticsTracker.

Lemma _save_data_eq (w : World) (s : t) :
  _save_data (w, s) = (Ok tt, (after_save w s, s)).
Proof.
  unfold _save_data, after_save, try_except, bind, self, gets, time_time,
    write_json.
  simpl. destruct (writable w); reflexivity.
Qed.

Lemma update_speed_eq (v : float) (w : World) (s : t) :
  update_speed v (w, s) =
  if gt v (max_speed_kmh s)
  then _save_data (w, set_max_speed_kmh v s)
  else (Ok tt, (w, s)).
Proof.
  unfold update_speed, bind, when, self, gets, assign, modify, ret. simpl.
  destruct (gt v (max_speed_kmh s)); reflexivity.
Qed.

Lemma update_speed_max (v : float) (w : World) (s : t) :
  fst (update_speed v (w, s)) = Ok tt /\
  max_speed_kmh (snd (snd (update_speed v (w, s)))) = max2 (max_speed_kmh s) v.
Proof.
  rewrite update_speed_eq. unfold max2.
  destruct (gt v (max_speed_kmh s)); [rewrite _save_data_eq|]; auto.
Qed.

Lemma update_speeds_max (speeds : list float) (w : World) (s : t) :
  fst (update_speeds speeds (w, s)) = Ok tt /\
  max_speed_kmh (snd (snd (update_speeds speeds (w, s)))) =
    fold_left max2 speeds (max_speed_kmh s).
Proof.
  revert w s. induction speeds as [|v rest IH]; intros w s; simpl; [auto|].
  unfold bind. destruct (update_speed_max v w s) as [Hr Hm].
  destruct (update_speed v (w, s)) as [r [w1 s1]]. simpl in *. subst r.
  rewrite <- Hm. apply IH.
Qed.

Lemma update_speeds_app (before after : list float) (w : World) (s : t) :
  update_speeds (before ++ after) (w, s) =
  update_speeds after (snd (update_speeds before (w, s))).
Proof.
  revert w s. induction before as [|v rest IH]; intros w s; simpl; [reflexivity|].
  unfold bind. destruct (update_speed_max v w s) as [Hr _].
  destruct (update_speed v (w, s)) as [r [w1 s1]]. simpl in *. subst r.
  apply IH.
Qed.

Lemma update_distance_eq (v : float) (w : World) (s : t) :
  update_distance v (w, s) =
  let dt := now w - last_update_time s in
  if gt dt 0 && gt v 0
  then
    let s' := set_total_distance_km (total_distance_km s + v * dt / 3600.0) s in
    (Ok tt, (after_save (tick w) s', set_last_update_time (now w) s'))
  else (Ok tt, (tick w, set_last_update_time (now w) s)).
Proof.
  unfold update_distance, bind, when, self, gets, assign, modify, ret,
    time_time, lift, truediv.
  simpl. destruct (gt (now w - last_update_time s) 0 && gt v 0); [|reflexivity].
  simpl. rewrite _save_data_eq. reflexivity.
Qed.

Lemma update_acceleration_eq (ax ay az : float) (w : World) (s : t) :
  overflows ax = false -> overflows ay = false ->
  update_acceleration ax ay az (w, s) =
  let lateral := sqrt (ax * ax + ay * ay) in
  let braking := abs (min2 0 (az - 1.0)) in
  let cornered := gt lateral (max_cornering_force_g s) in
  let braked := gt braking (max_braking_force_g s) in
  let s1 := if cornered then set_max_cornering_force_g lateral s else s in
  let w1 := if cornered then after_save w s1 else w in
  let s2 := if braked then set_max_braking_force_g braking s1 else s1 in
  let w2 := if braked then after_save w1 s2 else w1 in
  (Ok tt, (w2, s2)).
Proof.
  intros Hx Hy.
  unfold update_acceleration, bind, when, self, gets, assign, modify, ret,
    lift, pow2, math_sqrt.
  rewrite Hx, Hy, FloatFacts.sum_of_squares_not_negative. simpl.
  destruct (gt (sqrt (ax * ax + ay * ay)) (max_cornering_force_g s)).
  - rewrite _save_data_eq. simpl.
    destruct (gt (abs (min2 0 (az - 1))) (max_braking_force_g s));
      [rewrite _save_data_eq|]; reflexivity.
  - simpl. destruct (gt (abs (min2 0 (az - 1))) (max_braking_force_g s));
      [rewrite _save_data_eq|]; reflexivity.
Qed.

Lemma update_acceleration_overflow (ax ay az : float) (w : World) (s : t) :
  overflows ax || overflows ay = true ->
  update_acceleration ax ay az (w, s) = (Raise OverflowError, (w, s)).
Proof.
  unfold update_acceleration, bind, lift, pow2.
  destruct (overflows ax); [reflexivity|].
  destruct (overflows ay); [reflexivity|discriminate].
Qed.

Lemma reset_statistics_eq (w : World) (s : t) :
  reset_statistics (w, s) =
  (Ok tt,
   (after_save (tick (tick w)) (mk (data_file s) 0 0 0 0 (now w) (now (tick w))),
    mk (data_file s) 0 0 0 0 (now w) (now (tick w)))).
Proof. apply _save_data_eq. Qed.

Lemma get_statistics_eq (w : World) (s : t) :
  get_statistics (w, s) =
  (Ok (<["session_duration_hours" := (now w - session_start_time s) / 3600.0]>
       (<["max_braking_force_g" := max_braking_force_g s]>
       (<["max_cornering_force_g" := max_cornering_force_g s]>
       (<["total_distance_km" := total_distance_km s]>
       (<["max_speed_kmh" := max_speed_kmh s]> ∅))))),
   (tick w, s)).
Proof. reflexivity. Qed.

End TrackerFacts.

(** C2, as amended. From a tracker whose maximum speed is [0.0], a run of
    [update_speed] calls returns normally and leaves in [max_speed_kmh] what
    [max(0.0, v1, ..., vn)] is: no value passed in compares greater, it is
    [0.0] or one of the values, it is the maximum of the values passed in
    whenever that maximum is positive, and it never decreases along the
    run. *)
Theorem update_speeds_running_maximum
    (w : World) (s : StatisticsTracker.t) (speeds : list float) :
  StatisticsTracker.max_speed_kmh s = 0 ->
  let after l :=
    StatisticsTracker.max_speed_kmh
      (snd (snd (StatisticsTracker.update_speeds l (w, s)))) in
  fst (StatisticsTracker.update_speeds speeds (w, s)) = Ok tt /\
  after speeds = fold_left max2 speeds 0 /\
  (forall v, In v speeds -> gt v (after speeds) = false) /\
  (after speeds = 0 \/ In (after speeds) speeds) /\
  (forall m, maximum speeds = Some m -> (0 <? m) = true -> after speeds = m) /\
  (forall earlier later, speeds = earlier ++ later ->
     (after earlier <=? after speeds) = true).
Proof.
  intros H0 after.
  assert (Hafter : forall l, after l = fold_left max2 l 0).
  { intros l. unfold after.
    rewrite (proj2 (TrackerFacts.update_speeds_max l w s)), H0. reflexivity. }
  split; [apply TrackerFacts.update_speeds_max|].
  rewrite !Hafter. split; [reflexivity|]. split; [|split; [|split]].
  - intros v Hin. apply RunningMax.upper_bound, Hin.
  - apply RunningMax.attained.
  - intros m. apply RunningMax.agrees_with_maximum.
  - intros earlier later ->. rewrite Hafter, fold_left_app.
    apply RunningMax.grows, RunningMax.keeps_number. reflexivity.
Qed.

(** Applied to three speeds on a tracker fresh from the constructor. *)
Lemma update_speeds_running_maximum_witness :
  StatisticsTracker.max_speed_kmh Demo.fresh = 0 /\
  StatisticsTracker.max_speed_kmh
    (snd (snd (StatisticsTracker.update_speeds [3.5; 12.25; 7.0]
                 (Demo.first_run, Demo.fresh)))) = 12.25.
Proof.
  split; [reflexivity|].
  exact (proj1 (proj2 (update_speeds_running_maximum
                         Demo.first_run Demo.fresh [3.5; 12.25; 7.0] eq_refl))).
Defined.

(** C2 as stated fails for a negative speed: the maximum stays at the
    initial [0.0], which is not the value passed in. *)
Lemma update_speed_negative_counterexample :
  maximum [-1.0] = Some (-1.0) /\
  StatisticsTracker.max_speed_kmh
    (snd (snd (StatisticsTracker.update_speeds [-1.0]
                 (Demo.first_run, Demo.fresh)))) = 0 /\
  (0 =? -1.0) = false /\
  Some (StatisticsTracker.max_speed_kmh
    (snd (snd (StatisticsTracker.update_speeds [-1.0]
                 (Demo.first_run, Demo.fresh))))) <> maximum [-1.0].
Proof.
  repeat split; try reflexivity.
  intros H.
  apply (f_equal (fun o => match o with Some x => x <? 0 | None => false end))
    in H.
  vm_compute in H. discriminate H.
Qed.

(** C3. [update_distance] always returns and always moves the time reference
    to the current reading of the clock. With a positive speed [v] and a
    positive elapsed time [dt] the total grows by exactly [v * dt / 3600]; a
    speed of zero leaves it alone. After an idle call the next one measures
    its elapsed time from that idle call. *)
Theorem update_distance_accumulates
    (w : World) (s : StatisticsTracker.t) (v : float) :
  let dt := now w - StatisticsTracker.last_update_time s in
  let s' := snd (snd (StatisticsTracker.update_distance v (w, s))) in
  fst (StatisticsTracker.update_distance v (w, s)) = Ok tt /\
  StatisticsTracker.last_update_time s' = now w /\
  (gt v 0 = true -> gt dt 0 = true ->
   StatisticsTracker.total_distance_km s' =
     StatisticsTracker.total_distance_km s + v * dt / 3600.0) /\
  ((v =? 0) = true ->
   StatisticsTracker.total_distance_km s' =
     StatisticsTracker.total_distance_km s) /\
  (forall (w2 : World) (v2 : float),
     (v =? 0) = true -> gt v2 0 = true -> gt (now w2 - now w) 0 = true ->
     StatisticsTracker.total_distance_km
       (snd (snd (StatisticsTracker.update_distance v2 (w2, s')))) =
     StatisticsTracker.total_distance_km s + v2 * (now w2 - now w) / 3600.0).
Proof.
  intros dt s'.
  assert (Hidle : (v =? 0) = true -> s' = StatisticsTracker.set_last_update_time (now w) s).
  { intros Hv. unfold s'. rewrite TrackerFacts.update_distance_eq. simpl.
    unfold gt at 2. rewrite (FloatFacts.eqb_not_ltb _ _ Hv), andb_false_r.
    reflexivity. }
  split; [|split; [|split; [|split]]].
  - rewrite TrackerFacts.update_distance_eq. simpl.
    destruct (gt _ 0 && gt v 0); reflexivity.
  - unfold s'. rewrite TrackerFacts.update_distance_eq. simpl.
    destruct (gt _ 0 && gt v 0); reflexivity.
  - intros Hv Hdt. unfold s'. rewrite TrackerFacts.update_distance_eq. simpl.
    fold dt. rewrite Hv, Hdt. reflexivity.
  - intros Hv. rewrite (Hidle Hv). reflexivity.
  - intros w2 v2 Hv Hv2 Hdt. rewrite (Hidle Hv).
    rewrite TrackerFacts.update_distance_eq. simpl. rewrite Hv2, Hdt.
    reflexivity.
Qed.

(** One second at 36 km/h adds a hundredth of a kilometre. *)
Lemma update_distance_accumulates_witness :
  gt 36.0 0 = true /\
  gt (now Demo.first_run - StatisticsTracker.last_update_time Demo.driven) 0
    = true /\
  StatisticsTracker.total_distance_km
    (snd (snd (StatisticsTracker.update_distance 36.0
                 (Demo.first_run, Demo.driven)))) = 3.25 + 36.0 * 1.0 / 3600.0.
Proof.
  split; [reflexivity|]. split; [reflexivity|].
  exact (proj1 (proj2 (proj2
           (update_distance_accumulates Demo.first_run Demo.driven 36.0)))
           eq_refl eq_refl).
Defined.

(** C4. Whatever the tracker held, after [reset_statistics] a
    [get_statistics] whose clock reading is the one the reset took as session
    start returns zero in all five fields. The reading is a finite number. *)
Theorem reset_statistics_zeroes (w : World) (s : StatisticsTracker.t) :
  let after := StatisticsTracker.reset_statistics (w, s) in
  is_finite (now w) = true ->
  now (fst (snd after)) = now w ->
  fst after = Ok tt /\
  StatisticsTracker.session_start_time (snd (snd after)) = now w /\
  exists stats,
    fst (StatisticsTracker.get_statistics (snd after)) = Ok stats /\
    stats !! "max_speed_kmh" = Some 0 /\
    stats !! "total_distance_km" = Some 0 /\
    stats !! "max_cornering_force_g" = Some 0 /\
    stats !! "max_braking_force_g" = Some 0 /\
    stats !! "session_duration_hours" = Some 0.
Proof.
  intros after Hfin. unfold after.
  rewrite TrackerFacts.reset_statistics_eq. cbn [fst snd]. intros Hnow.
  split; [reflexivity|]. split; [reflexivity|].
  eexists. rewrite TrackerFacts.get_statistics_eq. cbn [fst snd].
  split; [reflexivity|].
  cbn [StatisticsTracker.session_start_time StatisticsTracker.max_speed_kmh
       StatisticsTracker.total_distance_km
       StatisticsTracker.max_cornering_force_g
       StatisticsTracker.max_braking_force_g].
  rewrite Hnow, (FloatFacts.sub_diag _ Hfin).
  repeat split; reflexivity.
Qed.

(** At a standstill the reset and the query read the same time. *)
Lemma reset_statistics_zeroes_witness :
  is_finite (now Demo.stopped) = true /\
  exists stats,
    fst (StatisticsTracker.get_statistics
           (snd (StatisticsTracker.reset_statistics
                   (Demo.stopped, Demo.driven)))) = Ok stats /\
    stats !! "max_speed_kmh" = Some 0 /\
    stats !! "session_duration_hours" = Some 0.
Proof.
  split; [reflexivity|].
  destruct (reset_statistics_zeroes Demo.stopped Demo.driven eq_refl eq_refl)
    as (_ & _ & stats & Hget & Hspeed & _ & _ & _ & Hhours).
  exists stats. auto.
Defined.




(** * The statistics file *)

Module Persistence.

Import StatisticsTracker.

Lemma writable_after_save (w : World) (s : t) :
  writable (after_save w s) = writable w.
Proof. unfold after_save. destruct (writable w) eqn:E; simpl; auto. Qed.





End Persistence.



(** A reading whose square overflows raises and changes nothing. *)
Example update_acceleration_overflow_example :
  StatisticsTracker.update_acceleration 1e200 0.0 1.0
    (Demo.first_run, Demo.fresh)
  = (Raise OverflowError, (Demo.first_run, Demo.fresh)).
Proof. reflexivity. Qed.

(** * The rotation channel *)

Module HallFacts.

Import HallSensor.

Lemma positive_not_zero (x : float) : gt x 0 = true -> (x =? 0) = false.
Proof.
  unfold gt. intros H. destruct (x =? 0) eqn:E; [|reflexivity].
  apply FloatFacts.eqb_not_ltb in E. congruence.
Qed.

Lemma _pulse_callback_eq (w : World) (h : t) :
  _pulse_callback (w, h) =
  let dt := now w - last_pulse_time h in
  let h1 := if gt (last_pulse_time h) 0 && gt dt 0
            then set_speed_kmh (wheel_circumference_m h / dt * 3.6) h
            else h in
  (Ok tt,
   (tick w,
    set_pulse_count (pulse_count h + 1) (set_last_pulse_time (now w) h1))).
Proof.
  unfold _pulse_callback, bind, when, self, gets, assign, modify, ret,
    time_time, lift, truediv.
  simpl. destruct (gt (last_pulse_time h) 0); [|reflexivity].
  simpl. destruct (gt (now w - last_pulse_time h) 0) eqn:Hdt; [|reflexivity].
  rewrite (positive_not_zero _ Hdt). reflexivity.
Qed.

End HallFacts.

(** C9. A pulse never raises, always records its time and counts itself. It
    leaves the speed alone when no earlier pulse is on record
    ([last_pulse_time] is zero) and when the time since the earlier pulse is
    not positive; otherwise the speed becomes circumference over elapsed
    time, in km/h. A sensor that has seen fewer than two pulses still reports
    its initial [0.0]. *)
Theorem pulse_callback_guards (w : World) (h : HallSensor.t) :
  let dt := now w - HallSensor.last_pulse_time h in
  let h' := snd (snd (HallSensor._pulse_callback (w, h))) in
  fst (HallSensor._pulse_callback (w, h)) = Ok tt /\
  HallSensor.last_pulse_time h' = now w /\
  HallSensor.pulse_count h' = (HallSensor.pulse_count h + 1)%Z /\
  ((HallSensor.last_pulse_time h =? 0) = true ->
   HallSensor.speed_kmh h' = HallSensor.speed_kmh h) /\
  ((dt <=? 0) = true -> HallSensor.speed_kmh h' = HallSensor.speed_kmh h) /\
  (gt (HallSensor.last_pulse_time h) 0 = true -> gt dt 0 = true ->
   HallSensor.speed_kmh h' = HallSensor.wheel_circumference_m h / dt * 3.6) /\
  (forall (pin : Z) (circumference : float) (n : nat),
     (n < 2)%nat ->
     let seen := snd (snd (HallSensor.pulses n
                             (w, HallSensor.__init__ pin circumference))) in
     HallSensor.speed_kmh seen = 0 /\ HallSensor.pulse_count seen = Z.of_nat n).
Proof.
  intros dt h'. unfold h'. rewrite HallFacts._pulse_callback_eq.
  cbn zeta. fold dt. cbn [fst snd].
  split; [reflexivity|]. split; [reflexivity|]. split; [reflexivity|].
  split; [|split; [|split]].
  - intros H. unfold gt at 1. rewrite (FloatFacts.eqb_not_ltb _ _ H).
    reflexivity.
  - intros H. unfold gt at 2. rewrite (FloatFacts.leb_not_ltb _ _ H).
    rewrite andb_false_r. reflexivity.
  - intros H1 H2. rewrite H1, H2. reflexivity.
  - intros pin circumference n Hn.
    destruct n as [|[|n]]; [split; reflexivity| |lia].
    cbn [HallSensor.pulses]. unfold bind.
    rewrite HallFacts._pulse_callback_eq. split; reflexivity.
Qed.

(** Two pulses a quarter of a second apart on a one-metre wheel. *)
Lemma pulse_callback_guards_witness :
  gt (HallSensor.last_pulse_time
        (HallSensor.mk 18 1.0 999.75 1 0.0)) 0 = true /\
  HallSensor.speed_kmh
    (snd (snd (HallSensor._pulse_callback
                 (Demo.first_run, HallSensor.mk 18 1.0 999.75 1 0.0))))
  = 14.4.
Proof.
  split; [reflexivity|].
  exact (proj1 (proj2 (proj2 (proj2 (proj2 (proj2
           (pulse_callback_guards Demo.first_run
              (HallSensor.mk 18 1.0 999.75 1 0.0)))))))
         eq_refl eq_refl).
Defined.

(** * The coordinator *)

Module ManagerFacts.

Import SensorManager.

Lemma update_speed_returns (v : float) (st : World * StatisticsTracker.t) :
  StatisticsTracker.update_speed v st =
  (Ok tt, snd (StatisticsTracker.update_speed v st)).
Proof.
  destruct st as [w s]. rewrite TrackerFacts.update_speed_eq.
  destruct (gt v _); [rewrite TrackerFacts._save_data_eq|]; reflexivity.
Qed.

Lemma update_distance_returns (v : float) (st : World * StatisticsTracker.t) :
  StatisticsTracker.update_distance v st =
  (Ok tt, snd (StatisticsTracker.update_distance v st)).
Proof.
  destruct st as [w s]. rewrite TrackerFacts.update_distance_eq. cbn zeta.
  destruct (gt _ 0 && gt v 0); reflexivity.
Qed.

Lemma get_speed_kmh_failure (hall : Channel float) (w w1 : World) (m : t)
    (e : exn) :
  hall w = (Raise e, w1) ->
  get_speed_kmh hall (w, m) = (Ok 0, (w1, set_error "hall" true m)).
Proof.
  intros H. unfold get_speed_kmh, try_except, bind, outside. simpl.
  rewrite H. reflexivity.
Qed.

Lemma get_altitude_m_failure (barometer : Channel float) (w w1 : World)
    (m : t) (e : exn) :
  barometer w = (Raise e, w1) ->
  get_altitude_m barometer (w, m) = (Ok 0, (w1, set_error "barometer" true m)).
Proof.
  intros H. unfold get_altitude_m, try_except, bind, outside. simpl.
  rewrite H. reflexivity.
Qed.

Lemma get_temperature_c_failure (thermometer : Channel float) (w w1 : World)
    (m : t) (e : exn) :
  thermometer w = (Raise e, w1) ->
  get_temperature_c thermometer (w, m) =
  (Ok 25.0, (w1, set_error "thermometer" true m)).
Proof.
  intros H. unfold get_temperature_c, try_except, bind, outside. simpl.
  rewrite H. reflexivity.
Qed.

Lemma get_acceleration_g_failure (accelerometer : Channel (float * float * float))
    (w w1 : World) (m : t) (e : exn) :
  accelerometer w = (Raise e, w1) ->
  get_acceleration_g accelerometer (w, m) =
  (Ok (0.0, 0.0, 1.0), (w1, set_error "accelerometer" true m)).
Proof.
  intros H. unfold get_acceleration_g, try_except, bind, outside. simpl.
  rewrite H. reflexivity.
Qed.

Lemma get_speed_kmh_success (hall : Channel float) (w w1 : World) (m : t)
    (raw : float) :
  hall w = (Ok raw, w1) ->
  get_speed_kmh hall (w, m) =
  let speed := max2 0 (raw + speed_offset m) in
  let m1 := mark_success "hall" (now w1) m in
  let st1 := snd (StatisticsTracker.update_speed speed (tick w1, statistics m)) in
  let st2 := snd (StatisticsTracker.update_distance speed st1) in
  (Ok speed, (fst st2, set_statistics (snd st2) m1)).
Proof.
  intros H.
  unfold get_speed_kmh, try_except, bind, outside, on_statistics, zoom,
    self, gets, time_time, assign, modify, ret.
  simpl. rewrite H. simpl.
  rewrite update_speed_returns.
  destruct (snd (StatisticsTracker.update_speed _ _)) as [w2 s2] eqn:E1.
  simpl. rewrite update_distance_returns.
  destruct (snd (StatisticsTracker.update_distance _ _)) as [w3 s3] eqn:E2.
  reflexivity.
Qed.

Lemma get_altitude_m_success (barometer : Channel float) (w w1 : World)
    (m : t) (raw : float) :
  barometer w = (Ok raw, w1) ->
  get_altitude_m barometer (w, m) =
  (Ok (raw + altitude_offset m),
   (tick w1, mark_success "barometer" (now w1) m)).
Proof.
  intros H. unfold get_altitude_m, try_except, bind, outside. simpl.
  rewrite H. reflexivity.
Qed.

Lemma get_temperature_c_success (thermometer : Channel float) (w w1 : World)
    (m : t) (raw : float) :
  thermometer w = (Ok raw, w1) ->
  get_temperature_c thermometer (w, m) =
  (Ok (raw + temp_offset m),
   (tick w1, mark_success "thermometer" (now w1) m)).
Proof.
  intros H. unfold get_temperature_c, try_except, bind, outside. simpl.
  rewrite H. reflexivity.
Qed.

Lemma get_sensor_status_eq (w : World) (m : t) :
  dom (sensor_errors m) ⊆ dom (last_successful_reads m) ->
  get_sensor_status (w, m) =
  (Ok (map_imap
         (fun sensor_name errored =>
            last ← last_successful_reads m !! sensor_name;
            Some (mk_status
                    (negb errored && (now w - last <? error_timeout m))
                    errored (now w - last)))
         (sensor_errors m)),
   (tick w, m)).
Proof.
  intros H. unfold get_sensor_status, bind, time_time, self, gets, ret. simpl.
  destruct (decide _); [reflexivity|contradiction].
Qed.

Lemma get_sensor_status_entry (w : World) (m : t) (name : string)
    (errored : bool) (last : float) :
  dom (sensor_errors m) ⊆ dom (last_successful_reads m) ->
  sensor_errors m !! name = Some errored ->
  last_successful_reads m !! name = Some last ->
  exists status,
    fst (get_sensor_status (w, m)) = Ok status /\
    status !! name =
      Some (mk_status (negb errored && (now w - last <? error_timeout m))
              errored (now w - last)).
Proof.
  intros Hdom He Hl. rewrite (get_sensor_status_eq w m Hdom).
  eexists. split; [reflexivity|].
  rewrite map_lookup_imap, He. simpl. rewrite Hl. reflexivity.
Qed.

Lemma mark_success_dom (name : string) (t_ok : float) (m : t) :
  dom (sensor_errors m) ⊆ dom (last_successful_reads m) ->
  dom (sensor_errors (mark_success name t_ok m)) ⊆
  dom (last_successful_reads (mark_success name t_ok m)).
Proof. simpl. rewrite !dom_insert. apply union_mono_l. Qed.

Lemma get_acceleration_g_success
    (accelerometer : Channel (float * float * float)) (w w1 : World) (m : t)
    (x y z : float) :
  accelerometer w = (Ok (x, y, z), w1) ->
  overflows x = false -> overflows y = false ->
  get_acceleration_g accelerometer (w, m) =
  let st := snd (StatisticsTracker.update_acceleration x y z
                   (tick w1, statistics m)) in
  (Ok (x, y, z),
   (fst st, set_statistics (snd st) (mark_success "accelerometer" (now w1) m))).
Proof.
  intros H Hx Hy.
  unfold get_acceleration_g, try_except, bind, outside, on_statistics, zoom,
    self, gets, time_time, assign, modify, ret.
  simpl. rewrite H. simpl.
  rewrite (TrackerFacts.update_acceleration_eq x y z _ _ Hx Hy).
  reflexivity.
Qed.

(** ** What the constructor establishes and the methods keep *)




Lemma well_formed_keys (m : t) :
  well_formed m -> dom (sensor_errors m) ⊆ dom (last_successful_reads m).
Proof. intros (_ & -> & ->). reflexivity. Qed.




End ManagerFacts.

(** C1. When the read of its channel raises, each accessor returns its
    fallback instead of raising, and the only change to the coordinator is
    the error flag of that channel, now set. *)
Theorem accessors_contain_read_failures
    (w w1 : World) (m : SensorManager.t) (e : exn) :
  (forall hall : Channel float,
     hall w = (Raise e, w1) ->
     SensorManager.get_speed_kmh hall (w, m) =
       (Ok 0.0, (w1, SensorManager.set_error "hall" true m))) /\
  (forall barometer : Channel float,
     barometer w = (Raise e, w1) ->
     SensorManager.get_altitude_m barometer (w, m) =
       (Ok 0.0, (w1, SensorManager.set_error "barometer" true m))) /\
  (forall thermometer : Channel float,
     thermometer w = (Raise e, w1) ->
     SensorManager.get_temperature_c thermometer (w, m) =
       (Ok 25.0, (w1, SensorManager.set_error "thermometer" true m))) /\
  (forall accelerometer : Channel (float * float * float),
     accelerometer w = (Raise e, w1) ->
     SensorManager.get_acceleration_g accelerometer (w, m) =
       (Ok (0.0, 0.0, 1.0),
        (w1, SensorManager.set_error "accelerometer" true m))) /\
  (forall name : string,
     SensorManager.sensor_errors (SensorManager.set_error name true m) !! name
       = Some true).
Proof.
  split; [|split; [|split; [|split]]].
  - intros hall. apply ManagerFacts.get_speed_kmh_failure.
  - intros barometer. apply ManagerFacts.get_altitude_m_failure.
  - intros thermometer. apply ManagerFacts.get_temperature_c_failure.
  - intros accelerometer. apply ManagerFacts.get_acceleration_g_failure.
  - intros name. apply lookup_insert_eq.
Qed.

(** C6. With the timeout at its constant 5.0 seconds, the status of a
    channel is healthy exactly when its error flag is clear and the time
    since its last success is below 5.0: so a channel silent for 5.0 seconds
    or more is not healthy, and one whose flag is clear and whose last
    success is the present (finite) reading is. That is what each accessor
    leaves for its channel when it succeeds. *)
Theorem sensor_status_health (w : World) (m : SensorManager.t) :
  SensorManager.error_timeout m = 5.0 ->
  dom (SensorManager.sensor_errors m)
    ⊆ dom (SensorManager.last_successful_reads m) ->
  (forall (name : string) (errored : bool) (last : float),
     SensorManager.sensor_errors m !! name = Some errored ->
     SensorManager.last_successful_reads m !! name = Some last ->
     exists status entry,
       fst (SensorManager.get_sensor_status (w, m)) = Ok status /\
       status !! name = Some entry /\
       SensorManager.healthy entry = negb errored && (now w - last <? 5.0) /\
       SensorManager.error entry = errored /\
       SensorManager.time_since_last_read entry = now w - last /\
       ((5.0 <=? now w - last) = true ->
        SensorManager.healthy entry = false) /\
       (errored = false -> last = now w -> is_finite (now w) = true ->
        SensorManager.healthy entry = true)) /\
  (forall (hall : Channel float) (w0 w1 : World) (raw : float),
     hall w0 = (Ok raw, w1) -> now w1 = now w -> is_finite (now w) = true ->
     SensorManager.reports_healthy "hall" w
       (snd (snd (SensorManager.get_speed_kmh hall (w0, m))))) /\
  (forall (barometer : Channel float) (w0 w1 : World) (raw : float),
     barometer w0 = (Ok raw, w1) -> now w1 = now w ->
     is_finite (now w) = true ->
     SensorManager.reports_healthy "barometer" w
       (snd (snd (SensorManager.get_altitude_m barometer (w0, m))))) /\
  (forall (thermometer : Channel float) (w0 w1 : World) (raw : float),
     thermometer w0 = (Ok raw, w1) -> now w1 = now w ->
     is_finite (now w) = true ->
     SensorManager.reports_healthy "thermometer" w
       (snd (snd (SensorManager.get_temperature_c thermometer (w0, m))))) /\
  (forall (accelerometer : Channel (float * float * float)) (w0 w1 : World)
          (x y z : float),
     accelerometer w0 = (Ok (x, y, z), w1) ->
     overflows x = false -> overflows y = false ->
     now w1 = now w -> is_finite (now w) = true ->
     SensorManager.reports_healthy "accelerometer" w
       (snd (snd (SensorManager.get_acceleration_g accelerometer (w0, m))))).
Proof.
  intros Htimeout Hdom.
  assert (Hentry : forall m', SensorManager.error_timeout m' = 5.0 ->
            dom (SensorManager.sensor_errors m')
              ⊆ dom (SensorManager.last_successful_reads m') ->
            forall name errored last,
            SensorManager.sensor_errors m' !! name = Some errored ->
            SensorManager.last_successful_reads m' !! name = Some last ->
            exists status entry,
              fst (SensorManager.get_sensor_status (w, m')) = Ok status /\
              status !! name = Some entry /\
              SensorManager.healthy entry
                = negb errored && (now w - last <? 5.0) /\
              SensorManager.error entry = errored /\
              SensorManager.time_since_last_read entry = now w - last /\
              ((5.0 <=? now w - last) = true ->
               SensorManager.healthy entry = false) /\
              (errored = false -> last = now w -> is_finite (now w) = true ->
               SensorManager.healthy entry = true)).
  { intros m' Ht Hd name errored last He Hl.
    destruct (ManagerFacts.get_sensor_status_entry w m' name errored last
                Hd He Hl) as (status & Hs & Hn).
    rewrite Ht in Hn.
    exists status, (SensorManager.mk_status
                      (negb errored && (now w - last <? 5.0))
                      errored (now w - last)).
    repeat split; try assumption.
    - intros H. simpl. rewrite (FloatFacts.leb_not_ltb _ _ H).
      apply andb_false_r.
    - intros -> -> Hfin. simpl. rewrite (FloatFacts.sub_diag _ Hfin).
      reflexivity. }
  assert (Hmarked : forall name m',
            SensorManager.error_timeout m' = SensorManager.error_timeout m ->
            SensorManager.sensor_errors m'
              = SensorManager.sensor_errors
                  (SensorManager.mark_success name (now w) m) ->
            SensorManager.last_successful_reads m'
              = SensorManager.last_successful_reads
                  (SensorManager.mark_success name (now w) m) ->
            is_finite (now w) = true ->
            SensorManager.reports_healthy name w m').
  { intros name m' Ht He Hl Hfin.
    destruct (Hentry m') with (name := name) (errored := false)
                              (last := now w)
      as (status & entry & Hs & Hn & _ & _ & _ & _ & Hh).
    - congruence.
    - rewrite He, Hl. apply ManagerFacts.mark_success_dom, Hdom.
    - rewrite He. apply lookup_insert_eq.
    - rewrite Hl. apply lookup_insert_eq.
    - exists status, entry. auto. }
  split; [exact (Hentry m Htimeout Hdom)|].
  split; [|split; [|split]].
  - intros hall w0 w1 raw H Hnow Hfin.
    rewrite (ManagerFacts.get_speed_kmh_success hall w0 w1 m raw H).
    cbn zeta. cbn [snd]. rewrite Hnow. apply Hmarked; auto.
  - intros barometer w0 w1 raw H Hnow Hfin.
    rewrite (ManagerFacts.get_altitude_m_success barometer w0 w1 m raw H).
    cbn [snd]. rewrite Hnow. apply Hmarked; auto.
  - intros thermometer w0 w1 raw H Hnow Hfin.
    rewrite (ManagerFacts.get_temperature_c_success thermometer w0 w1 m raw H).
    cbn [snd]. rewrite Hnow. apply Hmarked; auto.
  - intros accelerometer w0 w1 x y z H Hx Hy Hnow Hfin.
    rewrite (ManagerFacts.get_acceleration_g_success
               accelerometer w0 w1 m x y z H Hx Hy).
    cbn zeta. cbn [snd]. rewrite Hnow. apply Hmarked; auto.
Qed.

Lemma demo_manager_keys :
  dom (SensorManager.sensor_errors Demo.manager)
    ⊆ dom (SensorManager.last_successful_reads Demo.manager).
Proof. simpl. rewrite !dom_insert, !dom_empty. reflexivity. Qed.

(** Half a second after the last barometer read. *)
Lemma sensor_status_health_witness :
  SensorManager.error_timeout Demo.manager = 5.0 /\
  exists status entry,
    fst (SensorManager.get_sensor_status (Demo.first_run, Demo.manager))
      = Ok status /\
    status !! "barometer" = Some entry /\
    SensorManager.healthy entry = true /\
    SensorManager.time_since_last_read entry = 0.5.
Proof.
  split; [reflexivity|].
  destruct (proj1 (sensor_status_health Demo.first_run Demo.manager
                     eq_refl demo_manager_keys)
              "barometer" false 999.5 eq_refl eq_refl)
    as (status & entry & Hs & Hn & Hh & _ & Ht & _).
  exists status, entry. auto.
Defined.

(** A failing driver on every channel. *)
Lemma accessors_contain_read_failures_witness :
  @Demo.broken float Demo.first_run = (Raise HardwareError, Demo.first_run) /\
  SensorManager.get_temperature_c Demo.broken (Demo.first_run, Demo.manager)
    = (Ok 25.0,
       (Demo.first_run,
        SensorManager.set_error "thermometer" true Demo.manager)).
Proof.
  split; [reflexivity|].
  exact (proj1 (proj2 (proj2 (accessors_contain_read_failures
                                Demo.first_run Demo.first_run Demo.manager
                                HardwareError)))
           Demo.broken eq_refl).
Defined.

(** C7, as amended. After [calibrate_speed(k)] on a raw reading [r], a
    [get_speed_kmh] on the same raw reading returns [max(0.0, r + (k - r))]
    in binary64 arithmetic: the known value up to the rounding of the two
    operations, floored at zero. It is [k] itself when [k] is positive and
    the two operations are exact, as they are for a raw reading of [0.0]. *)
Theorem calibrate_speed_round_trip
    (hall : Channel float) (w wa w2 wb : World) (m : SensorManager.t)
    (r k : float) :
  hall w = (Ok r, wa) ->
  hall w2 = (Ok r, wb) ->
  let m1 := snd (snd (SensorManager.calibrate_speed hall k (w, m))) in
  fst (SensorManager.calibrate_speed hall k (w, m)) = Ok tt /\
  SensorManager.speed_offset m1 = k - r /\
  fst (SensorManager.get_speed_kmh hall (w2, m1))
    = Ok (max2 0.0 (r + (k - r))) /\
  (gt k 0 = true -> r + (k - r) = k ->
   fst (SensorManager.get_speed_kmh hall (w2, m1)) = Ok k) /\
  (gt k 0 = true -> r = 0 ->
   fst (SensorManager.get_speed_kmh hall (w2, m1)) = Ok k) /\
  (gt (r + (k - r)) 0 = false ->
   fst (SensorManager.get_speed_kmh hall (w2, m1)) = Ok 0.0).
Proof.
  intros H1 H2 m1.
  assert (Hm1 : m1 = SensorManager.set_speed_offset (k - r) m).
  { unfold m1, SensorManager.calibrate_speed, bind, outside, assign, modify.
    simpl. rewrite H1. reflexivity. }
  assert (Hread : fst (SensorManager.get_speed_kmh hall (w2, m1))
                  = Ok (max2 0.0 (r + (k - r)))).
  { rewrite (ManagerFacts.get_speed_kmh_success hall w2 wb m1 r H2).
    cbn zeta. cbn [fst]. rewrite Hm1. reflexivity. }
  split.
  { unfold SensorManager.calibrate_speed, bind, outside, assign, modify.
    simpl. rewrite H1. reflexivity. }
  split; [rewrite Hm1; reflexivity|].
  split; [exact Hread|]. rewrite Hread. split; [|split].
  - intros Hk E. rewrite E. unfold max2. rewrite Hk. reflexivity.
  - intros Hk ->. rewrite (FloatFacts.zero_add_sub_zero k Hk).
    unfold max2. rewrite Hk. reflexivity.
  - intros Hneg. unfold max2. rewrite Hneg. reflexivity.
Qed.

(** A known speed of 25 km/h calibrated against a raw reading of 10. *)
Lemma calibrate_speed_round_trip_witness :
  gt 25.0 0 = true /\ 10.0 + (25.0 - 10.0) = 25.0 /\
  fst (SensorManager.get_speed_kmh (ret 10.0)
         (Demo.first_run,
          snd (snd (SensorManager.calibrate_speed (ret 10.0) 25.0
                      (Demo.first_run, Demo.manager))))) = Ok 25.0.
Proof.
  split; [reflexivity|]. split; [reflexivity|].
  exact (proj1 (proj2 (proj2 (proj2
           (calibrate_speed_round_trip (ret 10.0)
              Demo.first_run Demo.first_run Demo.first_run Demo.first_run
              Demo.manager 10.0 25.0 eq_refl eq_refl))))
           eq_refl eq_refl).
Defined.

(** C7 as stated fails for a negative known value, which the accessor
    floors at zero, and for values the two roundings do not give back. *)
Lemma calibrate_speed_counterexample :
  fst (SensorManager.get_speed_kmh (ret 0.0)
         (Demo.first_run,
          snd (snd (SensorManager.calibrate_speed (ret 0.0) (-5.0)
                      (Demo.first_run, Demo.manager))))) = Ok 0.0 /\
  (0.0 =? -5.0) = false /\
  fst (SensorManager.get_speed_kmh (ret 1.1)
         (Demo.first_run,
          snd (snd (SensorManager.calibrate_speed (ret 1.1) 7.2
                      (Demo.first_run, Demo.manager))))) = Ok 7.199999999999999 /\
  (7.199999999999999 =? 7.2) = false.
Proof. repeat split; reflexivity. Qed.

(** C10. When the read of the rotation channel raises, [get_speed_kmh]
    leaves the tracker as it was, last-update time included; the next
    [update_distance] therefore measures its elapsed time from the update
    before the failure. *)
Theorem failed_speed_read_leaves_statistics
    (hall : Channel float) (w w1 : World) (m : SensorManager.t) (e : exn) :
  hall w = (Raise e, w1) ->
  let m' := snd (snd (SensorManager.get_speed_kmh hall (w, m))) in
  SensorManager.statistics m' = SensorManager.statistics m /\
  (forall (w2 : World) (v : float),
     let last := StatisticsTracker.last_update_time
                   (SensorManager.statistics m) in
     gt v 0 = true -> gt (now w2 - last) 0 = true ->
     StatisticsTracker.total_distance_km
       (snd (snd (StatisticsTracker.update_distance v
                    (w2, SensorManager.statistics m')))) =
     StatisticsTracker.total_distance_km (SensorManager.statistics m)
       + v * (now w2 - last) / 3600.0).
Proof.
  intros H m'. unfold m'.
  rewrite (ManagerFacts.get_speed_kmh_failure hall w w1 m e H). cbn [snd].
  split; [reflexivity|].
  intros w2 v Hv Hdt.
  cbn [SensorManager.statistics SensorManager.set_error].
  rewrite TrackerFacts.update_distance_eq. cbn zeta.
  rewrite Hv, Hdt. reflexivity.
Qed.

(** A failing rotation channel in the middle of a session. *)
Lemma failed_speed_read_leaves_statistics_witness :
  @Demo.broken float Demo.first_run = (Raise HardwareError, Demo.first_run) /\
  SensorManager.statistics
    (snd (snd (SensorManager.get_speed_kmh Demo.broken
                 (Demo.first_run, Demo.manager)))) = Demo.driven.
Proof.
  split; [reflexivity|].
  exact (proj1 (failed_speed_read_leaves_statistics Demo.broken
                  Demo.first_run Demo.first_run Demo.manager HardwareError
                  eq_refl)).
Defined.

(** The channel the class [HallSensor] provides never raises: it returns
    the stored speed. *)
Lemma hall_channel_returns (h : HallSensor.t) (w : World) :
  hall_channel h w = (Ok (HallSensor.speed_kmh h), w).
Proof. reflexivity. Qed.

(** * More about the tracker *)

Module TrackerMore.

Import StatisticsTracker.
Import TrackerNotions.

Lemma gt_irrefl (x : float) : gt x x = false.
Proof. apply RunningMax.ltb_irrefl. Qed.

(** What a call does to the tracker and to the clock does not depend on the
    disk. *)
Lemma call_blind_to_disk (c : mutation) (w w' : World) (s : t) :
  clock w = clock w' -> ticks w = ticks w' ->
  fst (call c (w, s)) = fst (call c (w', s)) /\
  snd (snd (call c (w, s))) = snd (snd (call c (w', s))) /\
  clock (fst (snd (call c (w, s)))) = clock (fst (snd (call c (w', s)))) /\
  ticks (fst (snd (call c (w, s)))) = ticks (fst (snd (call c (w', s)))).
Proof.
  intros Hc Ht.
  assert (Hnow : now w = now w') by (unfold now; rewrite Hc, Ht; reflexivity).
  assert (Hsave : forall u u' x, clock u = clock u' -> ticks u = ticks u' ->
            clock (after_save u x) = clock (after_save u' x) /\
            ticks (after_save u x) = ticks (after_save u' x)).
  { intros u u' x H1 H2. unfold after_save.
    destruct (writable u), (writable u'); simpl; rewrite H1, H2; auto. }
  destruct c as [v|v|ax ay az|]; simpl.
  - rewrite !TrackerFacts.update_speed_eq.
    destruct (gt v (max_speed_kmh s)).
    + rewrite !TrackerFacts._save_data_eq. simpl.
      destruct (Hsave w w' (set_max_speed_kmh v s) Hc Ht). auto.
    + simpl. auto.
  - rewrite !TrackerFacts.update_distance_eq. cbn zeta. rewrite <- Hnow.
    destruct (gt _ 0 && gt v 0); cbn [fst snd].
    + destruct (Hsave (tick w) (tick w')
                  (set_total_distance_km
                     (total_distance_km s
                      + v * (now w - last_update_time s) / 3600.0) s))
        as [H1 H2]; simpl; try congruence. auto.
    + simpl. rewrite Hc, Ht. auto.
  - destruct (overflows ax || overflows ay) eqn:Hov.
    + rewrite !(TrackerFacts.update_acceleration_overflow _ _ _ _ _ Hov).
      simpl. auto.
    + apply orb_false_elim in Hov. destruct Hov as [Hx Hy].
      rewrite !(TrackerFacts.update_acceleration_eq _ _ _ _ _ Hx Hy).
      cbn zeta. cbn [fst snd].
      destruct (gt (sqrt _) _), (gt (abs _) _).
      * destruct (Hsave w w' (set_max_cornering_force_g
                                (sqrt (ax * ax + ay * ay)) s) Hc Ht)
          as [H1 H2].
        destruct (Hsave _ _ (set_max_braking_force_g
                               (abs (min2 0 (az - 1)))
                               (set_max_cornering_force_g
                                  (sqrt (ax * ax + ay * ay)) s)) H1 H2).
        auto.
      * destruct (Hsave w w' (set_max_cornering_force_g
                                (sqrt (ax * ax + ay * ay)) s) Hc Ht). auto.
      * destruct (Hsave w w' (set_max_braking_force_g
                                (abs (min2 0 (az - 1))) s) Hc Ht). auto.
      * auto.
  - rewrite !TrackerFacts.reset_statistics_eq. cbn [fst snd].
    rewrite <- Hnow.
    assert (Hnow1 : now (tick w) = now (tick w')).
    { unfold now, tick. simpl. rewrite Hc, Ht. reflexivity. }
    rewrite <- Hnow1.
    destruct (Hsave (tick (tick w)) (tick (tick w'))
                (mk (data_file s) 0 0 0 0 (now w) (now (tick w))))
      as [H1 H2]; simpl; try congruence. auto.
Qed.

Lemma after_save_read_only (w : World) (s : t) :
  writable w = false -> disk (after_save w s) = disk w.
Proof. intros H. unfold after_save. rewrite H. reflexivity. Qed.

(** On a disk that refuses writes no call changes the disk. *)
Lemma call_read_only (c : mutation) (w : World) (s : t) :
  writable w = false ->
  disk (fst (snd (call c (w, s)))) = disk w /\
  writable (fst (snd (call c (w, s)))) = false.
Proof.
  intros Hw.
  assert (Hsave : forall u x, writable u = false ->
            disk (after_save u x) = disk u /\
            writable (after_save u x) = false).
  { intros u x H. split; [apply after_save_read_only, H|].
    rewrite Persistence.writable_after_save. exact H. }
  destruct c as [v|v|ax ay az|]; simpl.
  - rewrite TrackerFacts.update_speed_eq.
    destruct (gt v (max_speed_kmh s)); [|auto].
    rewrite TrackerFacts._save_data_eq. simpl. apply Hsave, Hw.
  - rewrite TrackerFacts.update_distance_eq. cbn zeta.
    destruct (gt _ 0 && gt v 0); cbn [fst snd]; [|auto].
    destruct (Hsave (tick w)
                (set_total_distance_km
                   (total_distance_km s
                    + v * (now w - last_update_time s) / 3600.0) s) Hw).
    auto.
  - destruct (overflows ax || overflows ay) eqn:Hov.
    + rewrite (TrackerFacts.update_acceleration_overflow _ _ _ _ _ Hov). auto.
    + apply orb_false_elim in Hov. destruct Hov as [Hx Hy].
      rewrite (TrackerFacts.update_acceleration_eq _ _ _ _ _ Hx Hy).
      cbn zeta. cbn [fst snd].
      destruct (gt (sqrt _) _), (gt (abs _) _); auto.
      * destruct (Hsave w (set_max_cornering_force_g
                             (sqrt (ax * ax + ay * ay)) s) Hw) as [H1 H2].
        destruct (Hsave _ (set_max_braking_force_g
                             (abs (min2 0 (az - 1)))
                             (set_max_cornering_force_g
                                (sqrt (ax * ax + ay * ay)) s)) H2) as [H3 H4].
        split; [congruence|exact H4].
  - rewrite TrackerFacts.reset_statistics_eq. cbn [fst snd].
    destruct (Hsave (tick (tick w))
                (mk (data_file s) 0 0 0 0 (now w) (now (tick w))) Hw).
    auto.
Qed.

End TrackerMore.

(** X1. The constructor never fails. Without a file, or with one that does
    not parse, the four durable fields are [0.0]; with a JSON object each
    field is the number stored under its key, or [0.0] when the key is
    missing. The two timestamps are the constructor's own clock readings and
    the disk is left as it was. *)
Theorem constructor_defaults (path : string) (w : World) :
  exists s,
    StatisticsTracker.__init__ path w = (Ok s, tick (tick w)) /\
    StatisticsTracker.data_file s = path /\
    StatisticsTracker.session_start_time s = now w /\
    StatisticsTracker.last_update_time s = now (tick w) /\
    match disk w !! path with
    | Some (Json data) =>
        StatisticsTracker.durable s =
          (default 0.0 (data !! "max_speed_kmh"),
           default 0.0 (data !! "total_distance_km"),
           default 0.0 (data !! "max_cornering_force_g"),
           default 0.0 (data !! "max_braking_force_g"))
    | Some Garbage | None =>
        StatisticsTracker.durable s = (0.0, 0.0, 0.0, 0.0)
    end.
Proof.
  unfold StatisticsTracker.__init__, StatisticsTracker._load_data, try_except,
    bind, self, world, gets, assign, modify, ret, raise.
  simpl. destruct (disk w !! path) as [[data|]|]; simpl;
    eexists; repeat split; reflexivity.
Qed.

(** X2. A disk that refuses writes costs nothing but durability: every
    mutating call returns what it returns on a writable disk and leaves the
    tracker in the same state, and the disk is untouched. *)
Theorem unwritable_disk_contained
    (c : StatisticsTracker.mutation) (w : World) (s : StatisticsTracker.t) :
  writable w = false ->
  let twin := TrackerNotions.with_writable true w in
  fst (StatisticsTracker.call c (w, s))
    = fst (StatisticsTracker.call c (twin, s)) /\
  snd (snd (StatisticsTracker.call c (w, s)))
    = snd (snd (StatisticsTracker.call c (twin, s))) /\
  disk (fst (snd (StatisticsTracker.call c (w, s)))) = disk w.
Proof.
  intros Hw twin.
  destruct (TrackerMore.call_blind_to_disk c w twin s eq_refl eq_refl)
    as (H1 & H2 & _).
  destruct (TrackerMore.call_read_only c w s Hw) as [H3 _].
  auto.
Qed.

Lemma unwritable_disk_contained_witness :
  writable Demo2.read_only = false /\
  StatisticsTracker.max_speed_kmh
    (snd (snd (StatisticsTracker.call (StatisticsTracker.UpdateSpeed 30.0)
                 (Demo2.read_only, Demo.fresh)))) = 30.0 /\
  disk (fst (snd (StatisticsTracker.call (StatisticsTracker.UpdateSpeed 30.0)
                    (Demo2.read_only, Demo.fresh)))) = ∅.
Proof.
  split; [reflexivity|].
  destruct (unwritable_disk_contained (StatisticsTracker.UpdateSpeed 30.0)
              Demo2.read_only Demo.fresh eq_refl) as (_ & H2 & H3).
  split; [rewrite H2; reflexivity|exact H3].
Defined.

(** X3. A reading that sets no new record costs nothing: after
    [update_speed(v)] a second [update_speed(v)] changes neither the tracker
    nor the world (no clock reading, no write), and the same holds for a
    repeated [update_acceleration] of a reading whose squares are finite. *)
Theorem repeated_reading_is_free
    (w : World) (s : StatisticsTracker.t) (v ax ay az : float) :
  (let st := snd (StatisticsTracker.update_speed v (w, s)) in
   StatisticsTracker.update_speed v st = (Ok tt, st)) /\
  (overflows ax = false -> overflows ay = false ->
   let st := snd (StatisticsTracker.update_acceleration ax ay az (w, s)) in
   StatisticsTracker.update_acceleration ax ay az st = (Ok tt, st)).
Proof.
  split.
  - cbn zeta. rewrite (TrackerFacts.update_speed_eq v w s).
    destruct (gt v (StatisticsTracker.max_speed_kmh s)) eqn:E.
    + rewrite TrackerFacts._save_data_eq. cbn [snd].
      rewrite TrackerFacts.update_speed_eq. simpl.
      rewrite TrackerMore.gt_irrefl. reflexivity.
    + cbn [snd]. rewrite TrackerFacts.update_speed_eq, E. reflexivity.
  - intros Hx Hy. cbn zeta.
    rewrite (TrackerFacts.update_acceleration_eq ax ay az w s Hx Hy).
    cbn zeta. cbn [snd].
    destruct (gt (sqrt _) (StatisticsTracker.max_cornering_force_g s)) eqn:E1,
             (gt (abs _) (StatisticsTracker.max_braking_force_g s)) eqn:E2;
      rewrite (TrackerFacts.update_acceleration_eq ax ay az _ _ Hx Hy);
      simpl; rewrite ?TrackerMore.gt_irrefl, ?E1, ?E2; reflexivity.
Qed.

Lemma repeated_reading_is_free_witness :
  overflows 3.0 = false /\
  StatisticsTracker.update_acceleration 3.0 (-4.0) (-1.0)
    (snd (StatisticsTracker.update_acceleration 3.0 (-4.0) (-1.0)
            (Demo.first_run, Demo.driven)))
  = (Ok tt,
     snd (StatisticsTracker.update_acceleration 3.0 (-4.0) (-1.0)
            (Demo.first_run, Demo.driven))).
Proof.
  split; [reflexivity|].
  exact (proj2 (repeated_reading_is_free Demo.first_run Demo.driven
                  0.0 3.0 (-4.0) (-1.0)) eq_refl eq_refl).
Defined.

Lemma record_step (old new : float) :
  is_nan old = false ->
  is_nan (if gt new old then new else old) = false /\
  (old <=? (if gt new old then new else old)) = true.
Proof.
  intros H. unfold gt. destruct (old <? new) eqn:E.
  - split; [apply (FloatFacts.ltb_is_nan _ _ E)|apply FloatFacts.ltb_leb, E].
  - split; [exact H|apply FloatFacts.leb_refl, H].
Qed.

(** X4. NaN never becomes a record and records only grow: if the three
    maxima are numbers they are numbers after every call, and unless the
    call is a reset none of them has decreased. *)
Theorem maxima_stay_numbers_and_grow
    (c : StatisticsTracker.mutation) (w : World) (s : StatisticsTracker.t) :
  TrackerNotions.numbers s ->
  let s' := snd (snd (StatisticsTracker.call c (w, s))) in
  TrackerNotions.numbers s' /\
  (c <> StatisticsTracker.ResetStatistics ->
   (StatisticsTracker.max_speed_kmh s
      <=? StatisticsTracker.max_speed_kmh s') = true /\
   (StatisticsTracker.max_cornering_force_g s
      <=? StatisticsTracker.max_cornering_force_g s') = true /\
   (StatisticsTracker.max_braking_force_g s
      <=? StatisticsTracker.max_braking_force_g s') = true).
Proof.
  intros (Hs & Hc & Hb).
  pose proof (FloatFacts.leb_refl _ Hs) as Ls.
  pose proof (FloatFacts.leb_refl _ Hc) as Lc.
  pose proof (FloatFacts.leb_refl _ Hb) as Lb.
  unfold TrackerNotions.numbers.
  destruct c as [v|v|ax ay az|]; simpl.
  - rewrite TrackerFacts.update_speed_eq.
    destruct (record_step _ v Hs) as [N L].
    destruct (gt v (StatisticsTracker.max_speed_kmh s));
      [rewrite TrackerFacts._save_data_eq|]; simpl; auto.
  - rewrite TrackerFacts.update_distance_eq. cbn zeta.
    destruct (gt _ 0 && gt v 0); simpl; auto.
  - destruct (overflows ax || overflows ay) eqn:Hov.
    + rewrite (TrackerFacts.update_acceleration_overflow _ _ _ _ _ Hov).
      simpl. auto.
    + apply orb_false_elim in Hov. destruct Hov as [Hx Hy].
      rewrite (TrackerFacts.update_acceleration_eq _ _ _ _ _ Hx Hy).
      cbn zeta. cbn [fst snd].
      destruct (record_step _ (sqrt (ax * ax + ay * ay)) Hc) as [N1 L1].
      destruct (record_step _ (abs (min2 0 (az - 1))) Hb) as [N2 L2].
      destruct (gt (sqrt _) _), (gt (abs _) _); simpl; auto.
  - rewrite TrackerFacts.reset_statistics_eq. simpl.
    split; [auto|]. intros H. congruence.
Qed.

Lemma maxima_stay_numbers_and_grow_witness :
  TrackerNotions.numbers Demo.driven /\
  (StatisticsTracker.max_cornering_force_g Demo.driven
     <=? StatisticsTracker.max_cornering_force_g
           (snd (snd (StatisticsTracker.call
                        (StatisticsTracker.UpdateAcceleration 3.0 (-4.0) 1.0)
                        (Demo.first_run, Demo.driven))))) = true.
Proof.
  assert (H : TrackerNotions.numbers Demo.driven)
    by (repeat split; reflexivity).
  split; [exact H|].
  refine (proj1 (proj2 (proj2
            (maxima_stay_numbers_and_grow
               (StatisticsTracker.UpdateAcceleration 3.0 (-4.0) 1.0)
               Demo.first_run Demo.driven H) _))).
  discriminate.
Defined.

(** X5. [update_distance] adds nothing for a speed that is not positive (a
    negative one, a NaN) and nothing when the clock has not advanced since
    the last update (or has gone back): the total is unchanged and nothing
    is written, yet the time reference moves to the current reading. *)
Theorem update_distance_ignores
    (w : World) (s : StatisticsTracker.t) (v : float) :
  gt v 0 = false \/
  gt (now w - StatisticsTracker.last_update_time s) 0 = false ->
  StatisticsTracker.update_distance v (w, s)
    = (Ok tt, (tick w, StatisticsTracker.set_last_update_time (now w) s)).
Proof.
  intros H. rewrite TrackerFacts.update_distance_eq. cbn zeta.
  destruct H as [H|H]; rewrite H, ?andb_false_r; reflexivity.
Qed.

Lemma update_distance_ignores_witness :
  gt (-36.0) 0 = false /\
  StatisticsTracker.total_distance_km
    (snd (snd (StatisticsTracker.update_distance (-36.0)
                 (Demo.first_run, Demo.driven)))) = 3.25.
Proof.
  split; [reflexivity|].
  rewrite (update_distance_ignores Demo.first_run Demo.driven (-36.0)
             (or_introl eq_refl)).
  reflexivity.
Defined.

(** X6. The only exception a mutating call can raise is the
    [OverflowError] of [update_acceleration] on a finite component with an
    infinite square, and then neither the tracker nor the world has changed;
    in particular [math.sqrt] never sees a negative argument. *)
Theorem call_raises_only_overflow
    (c : StatisticsTracker.mutation) (w : World) (s : StatisticsTracker.t) :
  fst (StatisticsTracker.call c (w, s)) = Ok tt \/
  (exists ax ay az,
     c = StatisticsTracker.UpdateAcceleration ax ay az /\
     overflows ax || overflows ay = true /\
     StatisticsTracker.call c (w, s) = (Raise OverflowError, (w, s))).
Proof.
  destruct c as [v|v|ax ay az|]; simpl.
  - left. rewrite ManagerFacts.update_speed_returns. reflexivity.
  - left. rewrite ManagerFacts.update_distance_returns. reflexivity.
  - destruct (overflows ax || overflows ay) eqn:Hov.
    + right. exists ax, ay, az. split; [reflexivity|]. split; [exact Hov|].
      apply TrackerFacts.update_acceleration_overflow, Hov.
    + left. apply orb_false_elim in Hov. destruct Hov as [Hx Hy].
      rewrite (TrackerFacts.update_acceleration_eq _ _ _ _ _ Hx Hy).
      reflexivity.
  - left. rewrite TrackerFacts.reset_statistics_eq. reflexivity.
Qed.

(** * More about the rotation channel *)

Module HallMore.

Import SpecFloat.
Import HallSensor.

Lemma SFltb_not_negative x : SFltb x (S754_zero false) = false -> not_negative x.
Proof. destruct x as [[]|[]| |[] m e]; simpl; auto; discriminate. Qed.

Lemma SFdiv_not_negative x y :
  not_negative x -> SFltb (S754_zero false) y = true ->
  not_negative (SF64div x y).
Proof.
  destruct x as [[]|[]| |[] mx ex], y as [[]|[]| |[] my ey];
    simpl; auto; try tauto; try discriminate.
  intros _ _. unfold SF64div, SFdiv.
  destruct (SFdiv_core_binary _ _ _ _ _ _) as [[mz ez] lz].
  apply FloatFacts.binary_round_aux_not_negative.
Qed.

Lemma SFmul_not_negative x y :
  not_negative x -> SFltb (S754_zero false) y = true ->
  not_negative (SF64mul x y).
Proof.
  destruct x as [[]|[]| |[] mx ex], y as [[]|[]| |[] my ey];
    simpl; auto; try tauto; try discriminate.
  intros _ _. apply FloatFacts.binary_round_aux_not_negative.
Qed.

(** A quotient of a number not below zero by a positive one, scaled by a
    positive factor, is not below zero. *)
Lemma scaled_quotient_not_below_zero (c dt k : float) :
  (c <? 0) = false -> (0 <? dt) = true -> (0 <? k) = true ->
  (c / dt * k <? 0) = false.
Proof.
  rewrite !FloatAxioms.ltb_spec, FloatAxioms.mul_spec, FloatAxioms.div_spec.
  change (Prim2SF 0) with (S754_zero false).
  intros Hc Hdt Hk.
  apply FloatFacts.not_negative_SFltb, SFmul_not_negative; [|exact Hk].
  apply SFdiv_not_negative; [|exact Hdt].
  apply SFltb_not_negative, Hc.
Qed.

Lemma pulse_keeps_speed_sign (w : World) (h : t) :
  (wheel_circumference_m h <? 0) = false ->
  (speed_kmh h <? 0) = false ->
  (speed_kmh (snd (snd (_pulse_callback (w, h)))) <? 0) = false.
Proof.
  intros Hc Hs. rewrite HallFacts._pulse_callback_eq. cbn zeta. cbn [snd].
  destruct (gt (last_pulse_time h) 0 && gt (now w - last_pulse_time h) 0)
    eqn:E; [|exact Hs].
  apply andb_true_iff in E. destruct E as [_ Hdt].
  simpl. apply scaled_quotient_not_below_zero; auto.
Qed.

Lemma pulses_step (n : nat) (w : World) (h : t) :
  pulses (S n) (w, h) = pulses n (snd (_pulse_callback (w, h))).
Proof.
  cbn [pulses]. unfold bind. rewrite HallFacts._pulse_callback_eq.
  reflexivity.
Qed.

Lemma pulse_fields (w : World) (h : t) :
  let st := snd (_pulse_callback (w, h)) in
  fst st = tick w /\
  pulse_count (snd st) = (pulse_count h + 1)%Z /\
  last_pulse_time (snd st) = now w /\
  wheel_circumference_m (snd st) = wheel_circumference_m h /\
  gpio_pin (snd st) = gpio_pin h.
Proof.
  rewrite HallFacts._pulse_callback_eq. cbn zeta. cbn [fst snd].
  destruct (gt (last_pulse_time h) 0 && gt (now w - last_pulse_time h) 0);
    repeat split; reflexivity.
Qed.

End HallMore.

(** X7. Any number of pulses goes through without an exception; each one
    reads the clock once and counts once, the wheel data stay as
    constructed, and the time on record is the reading of the last pulse. *)
Theorem pulses_count_and_time (n : nat) (w : World) (h : HallSensor.t) :
  let st := snd (HallSensor.pulses n (w, h)) in
  fst (HallSensor.pulses n (w, h)) = Ok tt /\
  HallSensor.pulse_count (snd st) = (HallSensor.pulse_count h + Z.of_nat n)%Z /\
  ticks (fst st) = (ticks w + n)%nat /\
  clock (fst st) = clock w /\
  HallSensor.wheel_circumference_m (snd st) = HallSensor.wheel_circumference_m h /\
  HallSensor.gpio_pin (snd st) = HallSensor.gpio_pin h /\
  HallSensor.last_pulse_time (snd st) =
    match n with
    | O => HallSensor.last_pulse_time h
    | S k => clock w (ticks w + k)%nat
    end.
Proof.
  revert w h. induction n as [|n IH]; intros w h.
  - simpl. rewrite Z.add_0_r, Nat.add_0_r. repeat split; reflexivity.
  - cbn zeta. rewrite HallMore.pulses_step.
    destruct (HallMore.pulse_fields w h) as (Hw & Hc & Ht & Hm & Hp).
    destruct (snd (HallSensor._pulse_callback (w, h))) as [w1 h1].
    cbn [fst snd] in *. subst w1.
    destruct (IH (tick w) h1) as (I1 & I2 & I3 & I4 & I5 & I6 & I7).
    split; [exact I1|]. split; [rewrite I2, Hc; lia|].
    split; [rewrite I3; simpl; lia|]. split; [rewrite I4; reflexivity|].
    split; [congruence|]. split; [congruence|].
    rewrite I7. destruct n as [|k].
    + rewrite Ht. unfold now. rewrite Nat.add_0_r. reflexivity.
    + simpl. f_equal. lia.
Qed.

(** X8. On a wheel whose circumference is not negative the speed never
    goes below zero: if it is not below zero before a run of pulses it is
    not below zero after it, whatever the clock does. *)
Theorem pulses_speed_not_negative (n : nat) (w : World) (h : HallSensor.t) :
  (HallSensor.wheel_circumference_m h <? 0) = false ->
  (HallSensor.speed_kmh h <? 0) = false ->
  (HallSensor.speed_kmh (snd (snd (HallSensor.pulses n (w, h)))) <? 0) = false.
Proof.
  revert w h. induction n as [|n IH]; intros w h Hc Hs; [exact Hs|].
  rewrite HallMore.pulses_step.
  pose proof (HallMore.pulse_keeps_speed_sign w h Hc Hs) as Hs1.
  destruct (HallMore.pulse_fields w h) as (_ & _ & _ & Hm & _).
  destruct (snd (HallSensor._pulse_callback (w, h))) as [w1 h1].
  cbn [fst snd] in *. apply IH; [rewrite Hm; exact Hc|exact Hs1].
Qed.

Lemma pulses_speed_not_negative_witness :
  (HallSensor.wheel_circumference_m (HallSensor.__init__ 24 0.1397) <? 0)
    = false /\
  (HallSensor.speed_kmh
     (snd (snd (HallSensor.pulses 5
                  (Demo.first_run, HallSensor.__init__ 24 0.1397)))) <? 0)
    = false.
Proof.
  split; [reflexivity|].
  exact (pulses_speed_not_negative 5 Demo.first_run
           (HallSensor.__init__ 24 0.1397) eq_refl eq_refl).
Defined.

(** * More about the coordinator *)

Module ManagerMore.

Import SensorManager.
Import Requests.

Lemma max2_zero_number (x : float) :
  (max2 0 x <? 0) = false /\ is_nan (max2 0 x) = false.
Proof.
  unfold max2, gt. destruct (0 <? x) eqn:E; [|split; reflexivity].
  split; [|apply (FloatFacts.ltb_is_nan _ _ E)].
  apply FloatFacts.leb_not_ltb, FloatFacts.ltb_leb, E.
Qed.

(** Every accessor comes back on one of its two paths. *)
Lemma get_speed_kmh_cases (hall : Channel float) (w : World) (m : t) :
  (exists e w1, hall w = (Raise e, w1) /\
     get_speed_kmh hall (w, m) = (Ok 0, (w1, set_error "hall" true m))) \/
  (exists raw w1, hall w = (Ok raw, w1) /\
     get_speed_kmh hall (w, m) =
       (Ok (max2 0 (raw + speed_offset m)),
        (fst (snd (StatisticsTracker.update_distance
                     (max2 0 (raw + speed_offset m))
                     (snd (StatisticsTracker.update_speed
                             (max2 0 (raw + speed_offset m))
                             (tick w1, statistics m))))),
         set_statistics
           (snd (snd (StatisticsTracker.update_distance
                        (max2 0 (raw + speed_offset m))
                        (snd (StatisticsTracker.update_speed
                                (max2 0 (raw + speed_offset m))
                                (tick w1, statistics m))))))
           (mark_success "hall" (now w1) m)))).
Proof.
  destruct (hall w) as [[raw|e] w1] eqn:H.
  - right. exists raw, w1. split; [reflexivity|].
    apply (ManagerFacts.get_speed_kmh_success hall w w1 m raw H).
  - left. exists e, w1. split; [reflexivity|].
    apply (ManagerFacts.get_speed_kmh_failure hall w w1 m e H).
Qed.

Lemma get_altitude_m_cases (barometer : Channel float) (w : World) (m : t) :
  (exists e w1, barometer w = (Raise e, w1) /\
     get_altitude_m barometer (w, m)
       = (Ok 0, (w1, set_error "barometer" true m))) \/
  (exists raw w1, barometer w = (Ok raw, w1) /\
     get_altitude_m barometer (w, m)
       = (Ok (raw + altitude_offset m),
          (tick w1, mark_success "barometer" (now w1) m))).
Proof.
  destruct (barometer w) as [[raw|e] w1] eqn:H.
  - right. exists raw, w1. split; [reflexivity|].
    apply (ManagerFacts.get_altitude_m_success barometer w w1 m raw H).
  - left. exists e, w1. split; [reflexivity|].
    apply (ManagerFacts.get_altitude_m_failure barometer w w1 m e H).
Qed.

Lemma get_temperature_c_cases (thermometer : Channel float) (w : World)
    (m : t) :
  (exists e w1, thermometer w = (Raise e, w1) /\
     get_temperature_c thermometer (w, m)
       = (Ok 25.0, (w1, set_error "thermometer" true m))) \/
  (exists raw w1, thermometer w = (Ok raw, w1) /\
     get_temperature_c thermometer (w, m)
       = (Ok (raw + temp_offset m),
          (tick w1, mark_success "thermometer" (now w1) m))).
Proof.
  destruct (thermometer w) as [[raw|e] w1] eqn:H.
  - right. exists raw, w1. split; [reflexivity|].
    apply (ManagerFacts.get_temperature_c_success thermometer w w1 m raw H).
  - left. exists e, w1. split; [reflexivity|].
    apply (ManagerFacts.get_temperature_c_failure thermometer w w1 m e H).
Qed.

(** A reading the tracker cannot square: the read has succeeded and is on
    record, the tracker is as before, and the handler flags the channel. *)
Lemma get_acceleration_g_overflow
    (accelerometer : Channel (float * float * float)) (w w1 : World) (m : t)
    (x y z : float) :
  accelerometer w = (Ok (x, y, z), w1) ->
  overflows x || overflows y = true ->
  get_acceleration_g accelerometer (w, m) =
  (Ok (0.0, 0.0, 1.0),
   (tick w1,
    set_error "accelerometer" true (mark_success "accelerometer" (now w1) m))).
Proof.
  intros H Hov.
  unfold get_acceleration_g, try_except, bind, outside, on_statistics, zoom,
    self, gets, time_time, assign, modify, ret.
  simpl. rewrite H. simpl.
  rewrite (TrackerFacts.update_acceleration_overflow x y z _ _ Hov).
  reflexivity.
Qed.

Lemma get_acceleration_g_cases
    (accelerometer : Channel (float * float * float)) (w : World) (m : t) :
  (exists e w1, accelerometer w = (Raise e, w1) /\
     get_acceleration_g accelerometer (w, m)
       = (Ok (0.0, 0.0, 1.0), (w1, set_error "accelerometer" true m))) \/
  (exists x y z w1, accelerometer w = (Ok (x, y, z), w1) /\
     overflows x || overflows y = true /\
     get_acceleration_g accelerometer (w, m)
       = (Ok (0.0, 0.0, 1.0),
          (tick w1,
           set_error "accelerometer" true
             (mark_success "accelerometer" (now w1) m)))) \/
  (exists x y z w1, accelerometer w = (Ok (x, y, z), w1) /\
     overflows x = false /\ overflows y = false /\
     get_acceleration_g accelerometer (w, m)
       = (Ok (x, y, z),
          (fst (snd (StatisticsTracker.update_acceleration x y z
                       (tick w1, statistics m))),
           set_statistics
             (snd (snd (StatisticsTracker.update_acceleration x y z
                          (tick w1, statistics m))))
             (mark_success "accelerometer" (now w1) m)))).
Proof.
  destruct (accelerometer w) as [[[[x y] z]|e] w1] eqn:H.
  - destruct (overflows x || overflows y) eqn:Hov.
    + right. left. exists x, y, z, w1. split; [reflexivity|].
      split; [exact Hov|].
      apply (get_acceleration_g_overflow accelerometer w w1 m x y z H Hov).
    + right. right. apply orb_false_elim in Hov. destruct Hov as [Hx Hy].
      exists x, y, z, w1. split; [reflexivity|]. split; [exact Hx|].
      split; [exact Hy|].
      apply (ManagerFacts.get_acceleration_g_success
               accelerometer w w1 m x y z H Hx Hy).
  - left. exists e, w1. split; [reflexivity|].
    apply (ManagerFacts.get_acceleration_g_failure accelerometer w w1 m e H).
Qed.

End ManagerMore.

Module ManagerInvariant.

Import SensorManager.
Import Requests.




Lemma discard_ok {S A} (c : M S A) (st : S) (a : A) :
  fst (c st) = Ok a -> fst (discard c st) = Ok tt.
Proof.
  unfold discard, bind, ret. destruct (c st) as [[a'|e] s]; simpl;
    [reflexivity|discriminate].
Qed.






(** In a well-formed coordinator the status has an entry for each of the
    four channels and for nothing else. *)
Lemma status_of_well_formed (w : World) (m : t) :
  well_formed m ->
  exists status,
    get_sensor_status (w, m) = (Ok status, (tick w, m)) /\
    dom status = channel_names.
Proof.
  intros Hwf. pose proof (ManagerFacts.well_formed_keys m Hwf) as Hk.
  rewrite (ManagerFacts.get_sensor_status_eq w m Hk).
  eexists. split; [reflexivity|].
  destruct Hwf as (_ & He & Hl). rewrite <- He.
  apply set_eq. intros name. rewrite !elem_of_dom, map_lookup_imap.
  destruct (sensor_errors m !! name) as [errored|] eqn:E; simpl.
  - assert (Hin : name ∈ dom (last_successful_reads m)).
    { rewrite Hl, <- He. apply elem_of_dom. eauto. }
    apply elem_of_dom in Hin. destruct Hin as [last Hlast].
    rewrite Hlast. simpl. split; eauto.
  - split; intros [x Hx]; discriminate.
Qed.

End ManagerInvariant.

Lemma demo_manager_well_formed : SensorManager.well_formed Demo.manager.
Proof.
  unfold SensorManager.well_formed, SensorManager.channel_names. simpl.
  rewrite !dom_insert_L, !dom_empty_L. split; [reflexivity|].
  split; apply set_eq; intros name;
    rewrite !elem_of_union, !elem_of_singleton, elem_of_empty; tauto.
Qed.

(** X9. Nothing the display layer polls ever raises: on a well-formed
    coordinator the four accessors, the status, the statistics and the reset
    return normally whatever the channels do. *)
Theorem polled_calls_never_raise
    (r : Requests.request) (w : World) (m : SensorManager.t) :
  SensorManager.well_formed m ->
  Requests.polled r = true ->
  fst (Requests.serve r (w, m)) = Ok tt.
Proof.
  intros Hwf Hp.
  destruct r as [hall|barometer|thermometer|accelerometer| | |
                 |hall k|barometer k|thermometer k];
    try discriminate Hp; cbn [Requests.serve].
  - destruct (ManagerMore.get_speed_kmh_cases hall w m)
      as [(e & w1 & _ & H)|(raw & w1 & _ & H)];
      eapply ManagerInvariant.discard_ok; rewrite H; reflexivity.
  - destruct (ManagerMore.get_altitude_m_cases barometer w m)
      as [(e & w1 & _ & H)|(raw & w1 & _ & H)];
      eapply ManagerInvariant.discard_ok; rewrite H; reflexivity.
  - destruct (ManagerMore.get_temperature_c_cases thermometer w m)
      as [(e & w1 & _ & H)|(raw & w1 & _ & H)];
      eapply ManagerInvariant.discard_ok; rewrite H; reflexivity.
  - destruct (ManagerMore.get_acceleration_g_cases accelerometer w m)
      as [(e & w1 & _ & H)
         |[(x & y & z & w1 & _ & _ & H)
          |(x & y & z & w1 & _ & _ & _ & H)]];
      eapply ManagerInvariant.discard_ok; rewrite H; reflexivity.
  - destruct (ManagerInvariant.status_of_well_formed w m Hwf)
      as (status & H & _).
    eapply ManagerInvariant.discard_ok. rewrite H. reflexivity.
  - eapply ManagerInvariant.discard_ok.
    unfold SensorManager.get_statistics, SensorManager.on_statistics, zoom.
    cbn [fst snd]. rewrite TrackerFacts.get_statistics_eq. reflexivity.
  - unfold SensorManager.reset_statistics, SensorManager.on_statistics, zoom.
    cbn [fst snd]. rewrite TrackerFacts.reset_statistics_eq. reflexivity.
Qed.

Lemma polled_calls_never_raise_witness :
  Requests.polled (Requests.GetAcceleration Demo.broken) = true /\
  fst (Requests.serve (Requests.GetAcceleration Demo.broken)
         (Demo.first_run, Demo.manager)) = Ok tt.
Proof.
  split; [reflexivity|].
  exact (polled_calls_never_raise (Requests.GetAcceleration Demo.broken)
           Demo.first_run Demo.manager demo_manager_well_formed eq_refl).
Defined.


(** X11. [get_speed_kmh] always returns, and what it returns is a number
    that is not below zero, whatever the channel delivers (a negative value,
    NaN, an exception) and whatever the calibration offset. *)
Theorem speed_is_a_number_not_below_zero
    (hall : Channel float) (w : World) (m : SensorManager.t) :
  exists v,
    fst (SensorManager.get_speed_kmh hall (w, m)) = Ok v /\
    (v <? 0) = false /\ is_nan v = false.
Proof.
  destruct (ManagerMore.get_speed_kmh_cases hall w m)
    as [(e & w1 & _ & H)|(raw & w1 & _ & H)]; rewrite H; cbn [fst].
  - exists 0. repeat split; reflexivity.
  - eexists. split; [reflexivity|]. apply ManagerMore.max2_zero_number.
Qed.

(** X12. An acceleration reading with a component whose square overflows
    is answered like a sensor failure: the accessor returns the fallback
    [(0.0, 0.0, 1.0)], the tracker is untouched and the channel is flagged,
    although the read itself succeeded and its time is on record. *)
Theorem overflowing_reading_is_flagged
    (accelerometer : Channel (float * float * float)) (w w1 : World)
    (m : SensorManager.t) (x y z : float) :
  accelerometer w = (Ok (x, y, z), w1) ->
  overflows x || overflows y = true ->
  let out := SensorManager.get_acceleration_g accelerometer (w, m) in
  fst out = Ok (0.0, 0.0, 1.0) /\
  SensorManager.statistics (snd (snd out)) = SensorManager.statistics m /\
  SensorManager.sensor_errors (snd (snd out)) !! "accelerometer" = Some true /\
  SensorManager.last_successful_reads (snd (snd out)) !! "accelerometer"
    = Some (now w1).
Proof.
  intros H Hov. cbn zeta.
  rewrite (ManagerMore.get_acceleration_g_overflow
             accelerometer w w1 m x y z H Hov).
  cbn [fst snd]. split; [reflexivity|]. split; [reflexivity|].
  split; apply lookup_insert_eq.
Qed.

Lemma overflowing_reading_is_flagged_witness :
  overflows 1e200 || overflows 0.0 = true /\
  fst (SensorManager.get_acceleration_g (ret (1e200, 0.0, 1.0))
         (Demo.first_run, Demo.manager)) = Ok (0.0, 0.0, 1.0).
Proof.
  split; [reflexivity|].
  exact (proj1 (overflowing_reading_is_flagged (ret (1e200, 0.0, 1.0))
                  Demo.first_run Demo.first_run Demo.manager 1e200 0.0 1.0
                  eq_refl eq_refl)).
Defined.

(** X13. The calibrations are not guarded: when the channel read raises,
    the exception leaves [calibrate_speed], [calibrate_altitude] and
    [calibrate_temperature] and the coordinator keeps its offsets. *)
Theorem calibration_propagates_read_failure
    (channel : Channel float) (w w1 : World) (m : SensorManager.t)
    (e : exn) (known : float) :
  channel w = (Raise e, w1) ->
  SensorManager.calibrate_speed channel known (w, m) = (Raise e, (w1, m)) /\
  SensorManager.calibrate_altitude channel known (w, m) = (Raise e, (w1, m)) /\
  SensorManager.calibrate_temperature channel known (w, m)
    = (Raise e, (w1, m)).
Proof.
  intros H.
  unfold SensorManager.calibrate_speed, SensorManager.calibrate_altitude,
    SensorManager.calibrate_temperature, bind, outside.
  simpl. rewrite H. auto.
Qed.

Lemma calibration_propagates_read_failure_witness :
  @Demo.broken float Demo.first_run = (Raise HardwareError, Demo.first_run) /\
  SensorManager.calibrate_altitude Demo.broken 120.0
    (Demo.first_run, Demo.manager)
  = (Raise HardwareError, (Demo.first_run, Demo.manager)).
Proof.
  split; [reflexivity|].
  exact (proj1 (proj2 (calibration_propagates_read_failure Demo.broken
                         Demo.first_run Demo.first_run Demo.manager
                         HardwareError 120.0 eq_refl))).
Defined.

Module CalibrationFacts.

Import SpecFloat.

(** Taking [+0.0] away from a number other than zero and adding it back to
    [+0.0] changes nothing. *)
Lemma zero_add_sub_zero_nonzero (k : float) :
  is_nan k = false -> (k =? 0) = false -> 0 + (k - 0) = k.
Proof.
  unfold is_nan. rewrite !FloatAxioms.eqb_spec. intros Hn Hz.
  apply Prim2SF_inj.
  rewrite FloatAxioms.add_spec, FloatAxioms.sub_spec.
  change (Prim2SF 0) with (S754_zero false) in *.
  destruct (Prim2SF k) as [[]|[]| |[] m e]; try discriminate; reflexivity.
Qed.

Lemma max2_not_exceeded (old v : float) : gt v (max2 old v) = false.
Proof.
  unfold max2, gt. destruct (old <? v) eqn:E; [|exact E].
  apply RunningMax.ltb_irrefl.
Qed.

End CalibrationFacts.

(** X14. Altitude and temperature calibrate like speed but without the
    floor at zero: after [calibrate_altitude(k)] on a raw reading [r] the
    next [get_altitude_m] on the same raw reading returns [r + (k - r)],
    which is [k] whenever the two operations are exact, as for a raw reading
    of [0.0] and any number [k] other than zero, negative ones included; the
    other two offsets are untouched. The same holds for
    [calibrate_temperature]. *)
Theorem altitude_and_temperature_calibration
    (channel : Channel float) (w wa w2 wb : World) (m : SensorManager.t)
    (r k : float) :
  channel w = (Ok r, wa) ->
  channel w2 = (Ok r, wb) ->
  (let m1 := snd (snd (SensorManager.calibrate_altitude channel k (w, m))) in
   fst (SensorManager.get_altitude_m channel (w2, m1)) = Ok (r + (k - r)) /\
   (r = 0 -> is_nan k = false -> (k =? 0) = false ->
    fst (SensorManager.get_altitude_m channel (w2, m1)) = Ok k) /\
   SensorManager.speed_offset m1 = SensorManager.speed_offset m /\
   SensorManager.temp_offset m1 = SensorManager.temp_offset m) /\
  (let m1 := snd (snd (SensorManager.calibrate_temperature channel k (w, m))) in
   fst (SensorManager.get_temperature_c channel (w2, m1)) = Ok (r + (k - r)) /\
   (r = 0 -> is_nan k = false -> (k =? 0) = false ->
    fst (SensorManager.get_temperature_c channel (w2, m1)) = Ok k) /\
   SensorManager.speed_offset m1 = SensorManager.speed_offset m /\
   SensorManager.altitude_offset m1 = SensorManager.altitude_offset m).
Proof.
  intros H1 H2. split; cbn zeta.
  - assert (E : snd (snd (SensorManager.calibrate_altitude channel k (w, m)))
                = SensorManager.set_altitude_offset (k - r) m).
    { unfold SensorManager.calibrate_altitude, bind, outside, assign, modify.
      simpl. rewrite H1. reflexivity. }
    rewrite E.
    rewrite (ManagerFacts.get_altitude_m_success channel w2 wb _ r H2).
    cbn [fst snd]. split; [reflexivity|]. split; [|split; reflexivity].
    intros -> Hn Hz. simpl.
    rewrite (CalibrationFacts.zero_add_sub_zero_nonzero k Hn Hz). reflexivity.
  - assert (E : snd (snd (SensorManager.calibrate_temperature channel k (w, m)))
                = SensorManager.set_temp_offset (k - r) m).
    { unfold SensorManager.calibrate_temperature, bind, outside, assign,
        modify.
      simpl. rewrite H1. reflexivity. }
    rewrite E.
    rewrite (ManagerFacts.get_temperature_c_success channel w2 wb _ r H2).
    cbn [fst snd]. split; [reflexivity|]. split; [|split; reflexivity].
    intros -> Hn Hz. simpl.
    rewrite (CalibrationFacts.zero_add_sub_zero_nonzero k Hn Hz). reflexivity.
Qed.

(** A barometer that reads 0.0 at a spot known to lie 12.5 m below the
    reference. *)
Lemma altitude_and_temperature_calibration_witness :
  is_nan (-12.5) = false /\ (-12.5 =? 0) = false /\
  fst (SensorManager.get_altitude_m (ret 0.0)
         (Demo.first_run,
          snd (snd (SensorManager.calibrate_altitude (ret 0.0) (-12.5)
                      (Demo.first_run, Demo.manager))))) = Ok (-12.5).
Proof.
  split; [reflexivity|]. split; [reflexivity|].
  exact (proj1 (proj2 (proj1
           (altitude_and_temperature_calibration (ret 0.0)
              Demo.first_run Demo.first_run Demo.first_run Demo.first_run
              Demo.manager 0.0 (-12.5) eq_refl eq_refl)))
           eq_refl eq_refl eq_refl).
Defined.

(** X15. A speed that was read reaches the statistics: after a successful
    [get_speed_kmh] returning [v] the tracker's maximum is
    [max(old maximum, v)], which [v] does not exceed, and that is the
    [max_speed_kmh] the coordinator's [get_statistics] reports next. *)
Theorem speed_read_reaches_statistics
    (hall : Channel float) (w w1 w2 : World) (m : SensorManager.t)
    (raw : float) :
  hall w = (Ok raw, w1) ->
  let v := max2 0 (raw + SensorManager.speed_offset m) in
  let best := max2 (StatisticsTracker.max_speed_kmh
                      (SensorManager.statistics m)) v in
  let m' := snd (snd (SensorManager.get_speed_kmh hall (w, m))) in
  fst (SensorManager.get_speed_kmh hall (w, m)) = Ok v /\
  StatisticsTracker.max_speed_kmh (SensorManager.statistics m') = best /\
  gt v best = false /\
  exists stats,
    fst (SensorManager.get_statistics (w2, m')) = Ok stats /\
    stats !! "max_speed_kmh" = Some best.
Proof.
  intros H v best m'.
  assert (Hm : StatisticsTracker.max_speed_kmh (SensorManager.statistics m')
               = best).
  { unfold m'.
    rewrite (ManagerFacts.get_speed_kmh_success hall w w1 m raw H).
    cbn zeta. cbn [snd]. fold v. cbn [SensorManager.statistics
                                        SensorManager.set_statistics].
    destruct (TrackerFacts.update_speed_max v (tick w1)
                (SensorManager.statistics m)) as [_ Hmax].
    destruct (snd (StatisticsTracker.update_speed v _)) as [wa sa].
    cbn [snd] in Hmax. rewrite TrackerFacts.update_distance_eq. cbn zeta.
    destruct (gt _ 0 && gt v 0); cbn [snd]; exact Hmax. }
  split.
  { rewrite (ManagerFacts.get_speed_kmh_success hall w w1 m raw H).
    reflexivity. }
  split; [exact Hm|]. split; [apply CalibrationFacts.max2_not_exceeded|].
  unfold SensorManager.get_statistics, SensorManager.on_statistics, zoom.
  cbn [fst snd]. rewrite TrackerFacts.get_statistics_eq. cbn [fst].
  eexists. split; [reflexivity|]. rewrite Hm. reflexivity.
Qed.

Lemma speed_read_reaches_statistics_witness :
  fst (SensorManager.get_speed_kmh (ret 50.0) (Demo.first_run, Demo.manager))
    = Ok 50.0 /\
  StatisticsTracker.max_speed_kmh
    (SensorManager.statistics
       (snd (snd (SensorManager.get_speed_kmh (ret 50.0)
                    (Demo.first_run, Demo.manager))))) = 50.0.
Proof.
  destruct (speed_read_reaches_statistics (ret 50.0) Demo.first_run
              Demo.first_run Demo.first_run Demo.manager 50.0 eq_refl)
    as (H1 & H2 & _).
  split; [exact H1|exact H2].
Defined.

(** Resetting through the coordinator zeroes the tracker and nothing
    else: the three calibration offsets, the error flags, the times of the
    last successes and the timeout are as before. *)
Lemma reset_keeps_calibration_and_health
    (w : World) (m : SensorManager.t) :
  let m' := snd (snd (SensorManager.reset_statistics (w, m))) in
  fst (SensorManager.reset_statistics (w, m)) = Ok tt /\
  StatisticsTracker.durable (SensorManager.statistics m')
    = (0.0, 0.0, 0.0, 0.0) /\
  SensorManager.speed_offset m' = SensorManager.speed_offset m /\
  SensorManager.altitude_offset m' = SensorManager.altitude_offset m /\
  SensorManager.temp_offset m' = SensorManager.temp_offset m /\
  SensorManager.sensor_errors m' = SensorManager.sensor_errors m /\
  SensorManager.last_successful_reads m'
    = SensorManager.last_successful_reads m /\
  SensorManager.error_timeout m' = SensorManager.error_timeout m.
Proof.
  unfold SensorManager.reset_statistics, SensorManager.on_statistics, zoom.
  cbn [fst snd]. rewrite TrackerFacts.reset_statistics_eq.
  repeat split; reflexivity.
Qed.

(** * The driver-backed channels *)

Module ChannelFacts.

Lemma barometer_ok (sin : float -> float) (b : Barometer.t)
    (driver : Channel float) (w w1 : World) (v : float) :
  Barometer.sensor b = Some driver -> driver w = (Ok v, w1) ->
  Barometer.get_altitude_m sin (w, b) =
  (Ok v,
   (tick w1,
    Barometer.set_last_reading (SensorReading.mk v (now w1) "m") b)).
Proof.
  intros Hs Hd.
  unfold Barometer.get_altitude_m, bind, self, gets. simpl. rewrite Hs.
  unfold try_except, bind, outside. simpl. rewrite Hd. reflexivity.
Qed.

Lemma barometer_failure (sin : float -> float) (b : Barometer.t)
    (driver : Channel float) (w w1 : World) (e : exn) :
  Barometer.sensor b = Some driver -> driver w = (Raise e, w1) ->
  Barometer.get_altitude_m sin (w, b) =
  (Ok (SensorReading.value (Barometer.last_reading b)), (w1, b)).
Proof.
  intros Hs Hd.
  unfold Barometer.get_altitude_m, bind, self, gets. simpl. rewrite Hs.
  unfold try_except, bind, outside. simpl. rewrite Hd. reflexivity.
Qed.

Lemma thermometer_ok (sin : float -> float) (s : Thermometer.t)
    (driver : Channel float) (w w1 : World) (v : float) :
  Thermometer.sensor s = Some driver -> driver w = (Ok v, w1) ->
  Thermometer.get_temperature_c sin (w, s) =
  (Ok v,
   (tick w1,
    Thermometer.set_last_reading (SensorReading.mk v (now w1) "°C") s)).
Proof.
  intros Hs Hd.
  unfold Thermometer.get_temperature_c, bind, self, gets. simpl. rewrite Hs.
  unfold try_except, bind, outside. simpl. rewrite Hd. reflexivity.
Qed.

Lemma thermometer_failure (sin : float -> float) (s : Thermometer.t)
    (driver : Channel float) (w w1 : World) (e : exn) :
  Thermometer.sensor s = Some driver -> driver w = (Raise e, w1) ->
  Thermometer.get_temperature_c sin (w, s) =
  (Ok (SensorReading.value (Thermometer.last_reading s)), (w1, s)).
Proof.
  intros Hs Hd.
  unfold Thermometer.get_temperature_c, bind, self, gets. simpl. rewrite Hs.
  unfold try_except, bind, outside. simpl. rewrite Hd. reflexivity.
Qed.

Lemma accelerometer_ok (sin cos : float -> float) (s : Accelerometer.t)
    (driver : Channel (float * float * float)) (w w1 : World)
    (a0 a1 a2 : float) :
  Accelerometer.sensor s = Some driver -> driver w = (Ok (a0, a1, a2), w1) ->
  Accelerometer.get_acceleration_g sin cos (w, s) =
  (Ok (a0 / 9.81, a1 / 9.81, a2 / 9.81), (w1, s)).
Proof.
  intros Hs Hd.
  unfold Accelerometer.get_acceleration_g, bind, self, gets. simpl.
  rewrite Hs. unfold try_except, bind, outside. simpl. rewrite Hd.
  reflexivity.
Qed.

Lemma accelerometer_failure (sin cos : float -> float) (s : Accelerometer.t)
    (driver : Channel (float * float * float)) (w w1 : World) (e : exn) :
  Accelerometer.sensor s = Some driver -> driver w = (Raise e, w1) ->
  Accelerometer.get_acceleration_g sin cos (w, s) =
  (Ok (0.0, 0.0, 1.0), (w1, s)).
Proof.
  intros Hs Hd.
  unfold Accelerometer.get_acceleration_g, bind, self, gets. simpl.
  rewrite Hs. unfold try_except, bind, outside. simpl. rewrite Hd.
  reflexivity.
Qed.

End ChannelFacts.

(** X16. A barometer with a driver never raises. A read that succeeds
    returns the driver's value and puts it on record with the time; a read
    that fails returns the value on record and changes nothing, so a failure
    after a success repeats the last good altitude, and a failure before any
    success gives the initial [0.0]. *)
Theorem barometer_holds_last_good_value
    (sin : float -> float) (b : Barometer.t) (driver : Channel float) :
  Barometer.sensor b = Some driver ->
  (forall w, exists v, fst (Barometer.get_altitude_m sin (w, b)) = Ok v) /\
  (forall w w1 v, driver w = (Ok v, w1) ->
     Barometer.get_altitude_m sin (w, b) =
       (Ok v,
        (tick w1,
         Barometer.set_last_reading (SensorReading.mk v (now w1) "m") b))) /\
  (forall w w1 e, driver w = (Raise e, w1) ->
     Barometer.get_altitude_m sin (w, b) =
       (Ok (SensorReading.value (Barometer.last_reading b)), (w1, b))) /\
  (forall w w1 v w2 w3 e,
     driver w = (Ok v, w1) -> driver w2 = (Raise e, w3) ->
     fst (Barometer.get_altitude_m sin
            (w2, snd (snd (Barometer.get_altitude_m sin (w, b))))) = Ok v) /\
  (forall has_i2c d pressure w w1 e,
     b = Barometer.__init__ has_i2c d pressure ->
     driver w = (Raise e, w1) ->
     fst (Barometer.get_altitude_m sin (w, b)) = Ok 0.0).
Proof.
  intros Hs. split; [|split; [|split; [|split]]].
  - intros w. destruct (driver w) as [[v|e] w1] eqn:Hd.
    + rewrite (ChannelFacts.barometer_ok sin b driver w w1 v Hs Hd). eauto.
    + rewrite (ChannelFacts.barometer_failure sin b driver w w1 e Hs Hd).
      eauto.
  - intros w w1 v. apply ChannelFacts.barometer_ok, Hs.
  - intros w w1 e. apply ChannelFacts.barometer_failure, Hs.
  - intros w w1 v w2 w3 e H1 H2.
    rewrite (ChannelFacts.barometer_ok sin b driver w w1 v Hs H1). cbn [snd].
    rewrite (ChannelFacts.barometer_failure sin
               (Barometer.set_last_reading (SensorReading.mk v (now w1) "m") b)
               driver w2 w3 e Hs H2).
    reflexivity.
  - intros has_i2c d pressure w w1 e -> Hd.
    rewrite (ChannelFacts.barometer_failure sin _ driver w w1 e Hs Hd).
    reflexivity.
Qed.

Lemma barometer_holds_last_good_value_witness :
  Barometer.sensor Demo3.barometer = Some Demo3.steady /\
  Barometer.get_altitude_m (fun x => x) (Demo.first_run, Demo3.barometer)
  = (Ok 118.5,
     (tick Demo.first_run,
      Barometer.set_last_reading (SensorReading.mk 118.5 1000.0 "m")
        Demo3.barometer)).
Proof.
  split; [reflexivity|].
  exact (proj1 (proj2 (barometer_holds_last_good_value (fun x => x)
                         Demo3.barometer Demo3.steady eq_refl))
           Demo.first_run Demo.first_run 118.5 eq_refl).
Defined.

(** X17. A thermometer with a driver never raises; a successful read is
    returned and recorded, a failing read returns the value on record, which
    is 25.0 until the first success. *)
Theorem thermometer_holds_last_good_value
    (sin : float -> float) (s : Thermometer.t) (driver : Channel float) :
  Thermometer.sensor s = Some driver ->
  (forall w, exists v, fst (Thermometer.get_temperature_c sin (w, s)) = Ok v) /\
  (forall w w1 v w2 w3 e,
     driver w = (Ok v, w1) -> driver w2 = (Raise e, w3) ->
     fst (Thermometer.get_temperature_c sin (w, s)) = Ok v /\
     fst (Thermometer.get_temperature_c sin
            (w2, snd (snd (Thermometer.get_temperature_c sin (w, s)))))
       = Ok v) /\
  (forall w w1 e, driver w = (Raise e, w1) ->
     Thermometer.get_temperature_c sin (w, s) =
       (Ok (SensorReading.value (Thermometer.last_reading s)), (w1, s))) /\
  (forall has_i2c d w w1 e,
     s = Thermometer.__init__ has_i2c d ->
     driver w = (Raise e, w1) ->
     fst (Thermometer.get_temperature_c sin (w, s)) = Ok 25.0).
Proof.
  intros Hs. split; [|split; [|split]].
  - intros w. destruct (driver w) as [[v|e] w1] eqn:Hd.
    + rewrite (ChannelFacts.thermometer_ok sin s driver w w1 v Hs Hd). eauto.
    + rewrite (ChannelFacts.thermometer_failure sin s driver w w1 e Hs Hd).
      eauto.
  - intros w w1 v w2 w3 e H1 H2.
    rewrite (ChannelFacts.thermometer_ok sin s driver w w1 v Hs H1).
    cbn [fst snd]. split; [reflexivity|].
    rewrite (ChannelFacts.thermometer_failure sin
               (Thermometer.set_last_reading
                  (SensorReading.mk v (now w1) "°C") s)
               driver w2 w3 e Hs H2).
    reflexivity.
  - intros w w1 e. apply ChannelFacts.thermometer_failure, Hs.
  - intros has_i2c d w w1 e -> Hd.
    rewrite (ChannelFacts.thermometer_failure sin _ driver w w1 e Hs Hd).
    reflexivity.
Qed.

Lemma thermometer_holds_last_good_value_witness :
  Thermometer.sensor (Thermometer.__init__ true (Ok Demo.broken))
    = Some Demo.broken /\
  fst (Thermometer.get_temperature_c (fun x => x)
         (Demo.first_run, Thermometer.__init__ true (Ok Demo.broken)))
    = Ok 25.0.
Proof.
  split; [reflexivity|].
  exact (proj2 (proj2 (proj2 (thermometer_holds_last_good_value (fun x => x)
                  (Thermometer.__init__ true (Ok Demo.broken))
                  Demo.broken eq_refl)))
           true (Ok Demo.broken) Demo.first_run Demo.first_run HardwareError
           eq_refl eq_refl).
Defined.

(** X18. An accelerometer with a driver never raises: a reading in m/s2 is
    returned divided by 9.81 component by component, and a failing read is
    answered with [(0.0, 0.0, 1.0)]; the object itself never changes. *)
Theorem accelerometer_converts_or_defaults
    (sin cos : float -> float) (s : Accelerometer.t)
    (driver : Channel (float * float * float)) (w : World) :
  Accelerometer.sensor s = Some driver ->
  snd (snd (Accelerometer.get_acceleration_g sin cos (w, s))) = s /\
  match driver w with
  | (Ok (a0, a1, a2), _) =>
      fst (Accelerometer.get_acceleration_g sin cos (w, s))
        = Ok (a0 / 9.81, a1 / 9.81, a2 / 9.81)
  | (Raise _, _) =>
      fst (Accelerometer.get_acceleration_g sin cos (w, s))
        = Ok (0.0, 0.0, 1.0)
  end.
Proof.
  intros Hs. destruct (driver w) as [[[[a0 a1] a2]|e] w1] eqn:Hd.
  - rewrite (ChannelFacts.accelerometer_ok sin cos s driver w w1 a0 a1 a2
               Hs Hd). auto.
  - rewrite (ChannelFacts.accelerometer_failure sin cos s driver w w1 e
               Hs Hd). auto.
Qed.

Lemma accelerometer_converts_or_defaults_witness :
  Accelerometer.sensor Demo3.failing_accelerometer = Some Demo.broken /\
  fst (Accelerometer.get_acceleration_g (fun x => x) (fun x => x)
         (Demo.first_run, Demo3.failing_accelerometer)) = Ok (0.0, 0.0, 1.0).
Proof.
  split; [reflexivity|].
  exact (proj2 (accelerometer_converts_or_defaults (fun x => x) (fun x => x)
                  Demo3.failing_accelerometer Demo.broken Demo.first_run
                  eq_refl)).
Defined.

(** X19. What a channel object contains the coordinator never sees. With
    the rotation sensor, and with a barometer or a thermometer that has a
    driver, the accessor always takes its success path and leaves the error
    flag of the channel cleared; when the driver raises, the accessor
    returns the value on record plus the offset and notes a successful read.
    A failing accelerometer driver likewise yields [(0.0, 0.0, 1.0)] with the
    flag cleared. *)
Theorem driver_failures_are_masked
    (sin cos : float -> float) (w : World) (m : SensorManager.t)
    (h : HallSensor.t) (b : Barometer.t) (th : Thermometer.t)
    (a : Accelerometer.t) (db dt : Channel float)
    (da : Channel (float * float * float)) :
  Barometer.sensor b = Some db ->
  Thermometer.sensor th = Some dt ->
  Accelerometer.sensor a = Some da ->
  SensorManager.sensor_errors
    (snd (snd (SensorManager.get_speed_kmh (hall_channel h) (w, m))))
    !! "hall" = Some false /\
  SensorManager.sensor_errors
    (snd (snd (SensorManager.get_altitude_m (Barometer.channel sin b) (w, m))))
    !! "barometer" = Some false /\
  SensorManager.sensor_errors
    (snd (snd (SensorManager.get_temperature_c
                 (Thermometer.channel sin th) (w, m))))
    !! "thermometer" = Some false /\
  (forall w1 e, db w = (Raise e, w1) ->
     SensorManager.get_altitude_m (Barometer.channel sin b) (w, m) =
       (Ok (SensorReading.value (Barometer.last_reading b)
            + SensorManager.altitude_offset m),
        (tick w1, SensorManager.mark_success "barometer" (now w1) m))) /\
  (forall w1 e, dt w = (Raise e, w1) ->
     SensorManager.get_temperature_c (Thermometer.channel sin th) (w, m) =
       (Ok (SensorReading.value (Thermometer.last_reading th)
            + SensorManager.temp_offset m),
        (tick w1, SensorManager.mark_success "thermometer" (now w1) m))) /\
  (forall w1 e, da w = (Raise e, w1) ->
     fst (SensorManager.get_acceleration_g
            (Accelerometer.channel sin cos a) (w, m)) = Ok (0.0, 0.0, 1.0) /\
     SensorManager.sensor_errors
       (snd (snd (SensorManager.get_acceleration_g
                    (Accelerometer.channel sin cos a) (w, m))))
       !! "accelerometer" = Some false).
Proof.
  intros Hb Ht Ha.
  assert (Bch : forall w1 e, db w = (Raise e, w1) ->
            Barometer.channel sin b w
            = (Ok (SensorReading.value (Barometer.last_reading b)), w1)).
  { intros w1 e Hd. unfold Barometer.channel.
    rewrite (ChannelFacts.barometer_failure sin b db w w1 e Hb Hd).
    reflexivity. }
  assert (Tch : forall w1 e, dt w = (Raise e, w1) ->
            Thermometer.channel sin th w
            = (Ok (SensorReading.value (Thermometer.last_reading th)), w1)).
  { intros w1 e Hd. unfold Thermometer.channel.
    rewrite (ChannelFacts.thermometer_failure sin th dt w w1 e Ht Hd).
    reflexivity. }
  assert (Ach : forall w1 e, da w = (Raise e, w1) ->
            Accelerometer.channel sin cos a w = (Ok (0.0, 0.0, 1.0), w1)).
  { intros w1 e Hd. unfold Accelerometer.channel.
    rewrite (ChannelFacts.accelerometer_failure sin cos a da w w1 e Ha Hd).
    reflexivity. }
  split; [|split; [|split; [|split; [|split]]]].
  - rewrite (ManagerFacts.get_speed_kmh_success (hall_channel h) w w m
               (HallSensor.speed_kmh h) eq_refl).
    apply lookup_insert_eq.
  - destruct (db w) as [[v|e] w1] eqn:Hd.
    + assert (E : Barometer.channel sin b w = (Ok v, tick w1)).
      { unfold Barometer.channel.
        rewrite (ChannelFacts.barometer_ok sin b db w w1 v Hb Hd).
        reflexivity. }
      rewrite (ManagerFacts.get_altitude_m_success _ w _ m v E).
      apply lookup_insert_eq.
    + rewrite (ManagerFacts.get_altitude_m_success _ w _ m _ (Bch w1 e eq_refl)).
      apply lookup_insert_eq.
  - destruct (dt w) as [[v|e] w1] eqn:Hd.
    + assert (E : Thermometer.channel sin th w = (Ok v, tick w1)).
      { unfold Thermometer.channel.
        rewrite (ChannelFacts.thermometer_ok sin th dt w w1 v Ht Hd).
        reflexivity. }
      rewrite (ManagerFacts.get_temperature_c_success _ w _ m v E).
      apply lookup_insert_eq.
    + rewrite (ManagerFacts.get_temperature_c_success _ w _ m _
                 (Tch w1 e eq_refl)).
      apply lookup_insert_eq.
  - intros w1 e Hd.
    apply (ManagerFacts.get_altitude_m_success _ w w1 m _ (Bch w1 e Hd)).
  - intros w1 e Hd.
    apply (ManagerFacts.get_temperature_c_success _ w w1 m _ (Tch w1 e Hd)).
  - intros w1 e Hd.
    rewrite (ManagerFacts.get_acceleration_g_success _ w w1 m 0.0 0.0 1.0
               (Ach w1 e Hd) eq_refl eq_refl).
    cbn zeta. cbn [fst snd]. split; [reflexivity|]. apply lookup_insert_eq.
Qed.

Lemma driver_failures_are_masked_witness :
  Barometer.sensor Demo3.failing_barometer = Some Demo.broken /\
  SensorManager.get_altitude_m
    (Barometer.channel (fun x => x) Demo3.failing_barometer)
    (Demo.first_run, Demo.manager)
  = (Ok 0.0,
     (tick Demo.first_run,
      SensorManager.mark_success "barometer" 1000.0 Demo.manager)).
Proof.
  split; [reflexivity|].
  exact (proj1 (proj2 (proj2 (proj2
           (driver_failures_are_masked (fun x => x) (fun x => x)
              Demo.first_run Demo.manager (HallSensor.__init__ 24 0.1397)
              Demo3.failing_barometer
              (Thermometer.__init__ true (Ok Demo.broken))
              Demo3.failing_accelerometer Demo.broken Demo.broken Demo.broken
              eq_refl eq_refl eq_refl))))
           Demo.first_run HardwareError eq_refl).
Defined.

(** * The pages of the display *)

Module PageFacts.

Import Pages.

Lemma constructed : __init__ = showing 0.
Proof. reflexivity. Qed.

Lemma turn (p : Z) (event : option bool) :
  (0 <= p < 6)%Z -> event <> Some true ->
  _cycle_page event (showing p) = (Ok tt, showing ((p + 1) mod 6)).
Proof.
  intros Hp He.
  assert (H : (p = 0 \/ p = 1 \/ p = 2 \/ p = 3 \/ p = 4 \/ p = 5)%Z) by lia.
  destruct event as [[]|]; [congruence| |];
    destruct H as [->|[->|[->|[->|[->| ->]]]]]; reflexivity.
Qed.

Lemma clicks_from (events : list (option bool)) (p : Z) :
  (0 <= p < 6)%Z ->
  clicks events (showing p) = (Ok tt, showing ((p + turns events) mod 6)).
Proof.
  revert p. induction events as [|e rest IH]; intros p Hp.
  - unfold turns. simpl. rewrite Z.add_0_r, Z.mod_small by lia. reflexivity.
  - cbn [clicks]. unfold bind.
    destruct e as [[]|].
    + cbn [_cycle_page]. unfold ret. rewrite (IH p Hp). reflexivity.
    + rewrite (turn p (Some false) Hp) by discriminate.
      rewrite IH by (apply Z.mod_pos_bound; lia).
      unfold turns. cbn [List.filter length].
      rewrite Nat2Z.inj_succ, Z.add_mod_idemp_l by lia.
      do 3 f_equal. lia.
    + rewrite (turn p None Hp) by discriminate.
      rewrite IH by (apply Z.mod_pos_bound; lia).
      unfold turns. cbn [List.filter length].
      rewrite Nat2Z.inj_succ, Z.add_mod_idemp_l by lia.
      do 3 f_equal. lia.
Qed.

End PageFacts.

(** X20. Clicking turns the pages in a ring of six. After any run of clicks
    on the freshly built display, exactly one page is placed, and it is page
    [k mod 6] where [k] counts the clicks that did not land on the reset
    button; no click raises, a click on the reset button changes nothing, and
    six turning clicks bring the first page back. *)
Theorem clicks_cycle_six_pages (events : list (option bool)) :
  Pages.clicks events Pages.__init__
    = (Ok tt, Pages.showing (Pages.turns events mod 6)) /\
  (0 <= Pages.turns events mod 6 < 6)%Z /\
  Pages.clicks (Some true :: events) Pages.__init__
    = Pages.clicks events Pages.__init__ /\
  Pages.clicks (events ++ [None; None; None; None; None; None]) Pages.__init__
    = Pages.clicks events Pages.__init__.
Proof.
  assert (H0 : (0 <= 0 < 6)%Z) by lia.
  split; [|split; [|split]].
  - rewrite PageFacts.constructed, (PageFacts.clicks_from events 0 H0).
    reflexivity.
  - apply Z.mod_pos_bound. lia.
  - reflexivity.
  - rewrite PageFacts.constructed, !(PageFacts.clicks_from _ 0 H0).
    do 2 f_equal. unfold Pages.turns.
    rewrite List.filter_app, length_app, Nat2Z.inj_add. cbn [List.filter length].
    change (Z.of_nat 6) with (1 * 6)%Z. rewrite !Z.add_0_l.
    apply Z.mod_add. lia.
Qed.

(** * The periodic update of the display *)

Module DisplayFacts.

Import Display.
Import DisplayNotions.

Lemma bind_ok {S A B} (c : M S A) (k : A -> M S B) (s s' : S) (a : A) :
  c s = (Ok a, s') -> bind c k s = k a s'.
Proof. intros H. unfold bind. rewrite H. reflexivity. Qed.

Lemma bind_raise {S A B} (c : M S A) (k : A -> M S B) (s s' : S) (e : exn) :
  c s = (Raise e, s') -> bind c k s = (Raise e, s').
Proof. intros H. unfold bind. rewrite H. reflexivity. Qed.

Section Facts.
Context {G : Type}.
Variables (cb : callbacks G) (tk : toolkit).

Lemma _update_metrics_returns (s : G * t) :
  fst (_update_metrics cb tk s) = Ok tt.
Proof.
  unfold _update_metrics, try_except.
  match goal with
  | |- context [match ?b s with _ => _ end] => destruct (b s) as [[[]|e] s']
  end; reflexivity.
Qed.

Lemma _update_statistics_returns (g : G) (d : t) :
  exists d',
    _update_statistics cb tk (g, d)
      = (Ok tt, (snd (get_statistics cb g), d')) /\
    metric_cards d' = metric_cards d /\
    status_var d' = status_var d.
Proof.
  unfold _update_statistics, try_except, bind, call, lift, item, set_var, ret.
  cbn [fst snd].
  destruct (get_statistics cb g) as [[stats|e] g1]; cbn [fst snd]; [|eauto].
  repeat match goal with
         | |- context [match ?m !! ?k with _ => _ end] =>
             destruct (m !! k); cbn [fst snd]
         end; eauto.
Qed.

Lemma call_ok {A} (c : M G A) (g g' : G) (d : t) (a : A) :
  c g = (Ok a, g') -> call c (g, d) = (Ok a, (g', d)).
Proof. intros H. unfold call. cbn [fst snd]. rewrite H. reflexivity. Qed.

Lemma call_raise {A} (c : M G A) (g g' : G) (d : t) (e : exn) :
  c g = (Raise e, g') -> call c (g, d) = (Raise e, (g', d)).
Proof. intros H. unfold call. cbn [fst snd]. rewrite H. reflexivity. Qed.

Lemma set_metric_ok (key text : string) (g : G) (d : t) :
  is_Some (metric_cards d !! key) ->
  set_var metric_cards set_metric_cards key text (g, d)
  = (Ok tt, (g, set_metric_cards (<[key := text]> (metric_cards d)) d)).
Proof. intros [x H]. unfold set_var. cbn [fst snd]. rewrite H. reflexivity. Qed.

Lemma set_detail_returns (key text : string) (g : G) (d : t) :
  exists d',
    set_detail_if_present key text (g, d) = (Ok tt, (g, d')) /\
    metric_cards d' = metric_cards d.
Proof.
  unfold set_detail_if_present, bind, gets, set_var, ret. cbn [fst snd].
  destruct (detail_vars d !! key) eqn:E; cbn [fst snd]; rewrite ?E;
    eexists; split; reflexivity.
Qed.

Lemma _update_metrics_run (g g1 g2 g3 g4 g6 : G) (d : t)
    (speed altitude temperature ax ay az : float)
    (sensor_status : list (string * SensorManager.status)) :
  ready d -> draws tk ->
  get_speed cb g = (Ok speed, g1) ->
  get_altitude cb g1 = (Ok altitude, g2) ->
  get_temperature cb g2 = (Ok temperature, g3) ->
  get_accel cb g3 = (Ok (ax, ay, az), g4) ->
  get_sensor_status cb (snd (get_statistics cb g4)) = (Ok sensor_status, g6) ->
  exists d',
    _update_metrics cb tk (g, d) = (Ok tt, (g6, d')) /\
    status_var d' = status_line sensor_status.
Proof.
  intros (R1 & R2 & R3 & R4) Hdraw H1 H2 H3 H4 H6.
  unfold _update_metrics, try_except.
  rewrite (bind_ok _ _ _ _ _ (call_ok _ _ _ d _ H1)).
  rewrite (bind_ok _ _ _ _ _ (call_ok _ _ _ d _ H2)).
  rewrite (bind_ok _ _ _ _ _ (call_ok _ _ _ d _ H3)).
  rewrite (bind_ok _ _ _ _ _ (call_ok _ _ _ d _ H4)).
  do 4 (match goal with
        | |- context [bind (set_var metric_cards set_metric_cards ?k ?x) _
                        (g4, ?dd)] =>
            let H := fresh "Hkey" in
            assert (H : is_Some (metric_cards dd !! k))
              by (cbn; rewrite ?lookup_insert_ne by done; assumption);
            rewrite (bind_ok _ _ _ _ _ (set_metric_ok k x g4 dd H));
            clear H
        end).
  match goal with
  | |- context [bind (set_detail_if_present ?k ?x) _ (g4, ?dd)] =>
      destruct (set_detail_returns k x g4 dd) as (d1 & E1 & _)
  end.
  rewrite (bind_ok _ _ _ _ _ E1).
  match goal with
  | |- context [bind (set_detail_if_present ?k ?x) _ (g4, ?dd)] =>
      destruct (set_detail_returns k x g4 dd) as (d2 & E2 & _)
  end.
  rewrite (bind_ok _ _ _ _ _ E2).
  match goal with
  | |- context [bind (set_detail_if_present ?k ?x) _ (g4, ?dd)] =>
      destruct (set_detail_returns k x g4 dd) as (d3 & E3 & _)
  end.
  rewrite (bind_ok _ _ _ _ _ E3).
  match goal with
  | |- context [bind (set_detail_if_present ?k ?x) _ (g4, ?dd)] =>
      destruct (set_detail_returns k x g4 dd) as (d4 & E4 & _)
  end.
  rewrite (bind_ok _ _ _ _ _ E4).
  unfold bind at 1. unfold own at 1, modify at 1. cbn [fst snd].
  unfold bind at 1. unfold own at 1. cbn [fst snd].
  pose proof (Hdraw (set_last_speed (speed * 0.621371)
                       (format tk 1 (speed * 0.621371)) d4)) as Hd.
  destruct (_redraw_speed_canvas tk _) as [[[]|e] d5]; [|discriminate Hd].
  destruct (_update_statistics_returns g4 d5) as (d6 & E6 & _).
  rewrite (bind_ok _ _ _ _ _ E6).
  rewrite (bind_ok _ _ _ _ _ (call_ok _ _ _ d6 _ H6)).
  unfold own, modify. cbn [fst snd].
  eexists. split; reflexivity.
Qed.

End Facts.
End DisplayFacts.

(** X21. One periodic update never raises. If one of the four reads
    raises, the reads after it are not made, no card changes and the status
    shows the error; if the four reads and the status query return and the
    canvas draws, the status shows the line computed from the sensor
    status. *)
Theorem periodic_update_contract {G : Type}
    (cb : Display.callbacks G) (tk : Display.toolkit) (g : G)
    (d : Display.t) :
  let failed e := Display.set_status_var ("Error: " +:+ Display.str tk e) d in
  fst (Display._update_metrics cb tk (g, d)) = Ok tt /\
  (forall e g1,
     Display.get_speed cb g = (Raise e, g1) ->
     Display._update_metrics cb tk (g, d) = (Ok tt, (g1, failed e))) /\
  (forall e speed g1 g2,
     Display.get_speed cb g = (Ok speed, g1) ->
     Display.get_altitude cb g1 = (Raise e, g2) ->
     Display._update_metrics cb tk (g, d) = (Ok tt, (g2, failed e))) /\
  (forall e speed altitude g1 g2 g3,
     Display.get_speed cb g = (Ok speed, g1) ->
     Display.get_altitude cb g1 = (Ok altitude, g2) ->
     Display.get_temperature cb g2 = (Raise e, g3) ->
     Display._update_metrics cb tk (g, d) = (Ok tt, (g3, failed e))) /\
  (forall e speed altitude temperature g1 g2 g3 g4,
     Display.get_speed cb g = (Ok speed, g1) ->
     Display.get_altitude cb g1 = (Ok altitude, g2) ->
     Display.get_temperature cb g2 = (Ok temperature, g3) ->
     Display.get_accel cb g3 = (Raise e, g4) ->
     Display._update_metrics cb tk (g, d) = (Ok tt, (g4, failed e))) /\
  (forall speed altitude temperature accel sensor_status g1 g2 g3 g4 g6,
     DisplayNotions.ready d -> DisplayNotions.draws tk ->
     Display.get_speed cb g = (Ok speed, g1) ->
     Display.get_altitude cb g1 = (Ok altitude, g2) ->
     Display.get_temperature cb g2 = (Ok temperature, g3) ->
     Display.get_accel cb g3 = (Ok accel, g4) ->
     Display.get_sensor_status cb (snd (Display.get_statistics cb g4))
       = (Ok sensor_status, g6) ->
     exists d',
       Display._update_metrics cb tk (g, d) = (Ok tt, (g6, d')) /\
       Display.status_var d' = Display.status_line sensor_status).
Proof.
  intros failed.
  split; [apply DisplayFacts._update_metrics_returns|].
  split; [|split; [|split; [|split]]].
  - intros e g1 H1. unfold Display._update_metrics, try_except.
    rewrite (DisplayFacts.bind_raise _ _ _ _ _
               (DisplayFacts.call_raise _ _ _ d _ H1)).
    reflexivity.
  - intros e speed g1 g2 H1 H2. unfold Display._update_metrics, try_except.
    rewrite (DisplayFacts.bind_ok _ _ _ _ _
               (DisplayFacts.call_ok _ _ _ d _ H1)).
    rewrite (DisplayFacts.bind_raise _ _ _ _ _
               (DisplayFacts.call_raise _ _ _ d _ H2)).
    reflexivity.
  - intros e speed altitude g1 g2 g3 H1 H2 H3.
    unfold Display._update_metrics, try_except.
    rewrite (DisplayFacts.bind_ok _ _ _ _ _
               (DisplayFacts.call_ok _ _ _ d _ H1)).
    rewrite (DisplayFacts.bind_ok _ _ _ _ _
               (DisplayFacts.call_ok _ _ _ d _ H2)).
    rewrite (DisplayFacts.bind_raise _ _ _ _ _
               (DisplayFacts.call_raise _ _ _ d _ H3)).
    reflexivity.
  - intros e speed altitude temperature g1 g2 g3 g4 H1 H2 H3 H4.
    unfold Display._update_metrics, try_except.
    rewrite (DisplayFacts.bind_ok _ _ _ _ _
               (DisplayFacts.call_ok _ _ _ d _ H1)).
    rewrite (DisplayFacts.bind_ok _ _ _ _ _
               (DisplayFacts.call_ok _ _ _ d _ H2)).
    rewrite (DisplayFacts.bind_ok _ _ _ _ _
               (DisplayFacts.call_ok _ _ _ d _ H3)).
    rewrite (DisplayFacts.bind_raise _ _ _ _ _
               (DisplayFacts.call_raise _ _ _ d _ H4)).
    reflexivity.
  - intros speed altitude temperature [[ax ay] az] sensor_status
      g1 g2 g3 g4 g6 Hr Hd H1 H2 H3 H4 H6.
    exact (DisplayFacts._update_metrics_run cb tk g g1 g2 g3 g4 g6 d
             speed altitude temperature ax ay az sensor_status
             Hr Hd H1 H2 H3 H4 H6).
Qed.

(** A display whose first read fails. *)
Lemma periodic_update_contract_witness :
  fst (Display._update_metrics
         (Display.mk_callbacks (raise HardwareError) (ret 0.0) (ret 0.0)
            (ret (0.0, 0.0, 1.0)) (ret []) (ret "Demo Mode") (ret ∅) (ret tt))
         Main.plain (tt, Display.__init__)) = Ok tt /\
  Display.status_var
    (snd (snd (Display._update_metrics
                 (Display.mk_callbacks (raise HardwareError) (ret 0.0)
                    (ret 0.0) (ret (0.0, 0.0, 1.0)) (ret []) (ret "Demo Mode")
                    (ret ∅) (ret tt))
                 Main.plain (tt, Display.__init__))))
  = "Error: failure".
Proof.
  pose proof (periodic_update_contract
                (Display.mk_callbacks (raise HardwareError) (ret 0.0)
                   (ret 0.0) (ret (0.0, 0.0, 1.0)) (ret []) (ret "Demo Mode")
                   (ret ∅) (ret tt))
                Main.plain tt Display.__init__) as (H1 & H2 & _).
  split; [exact H1|].
  rewrite (H2 HardwareError tt eq_refl). reflexivity.
Defined.

(** X22. The status line reads "Systems nominal" exactly when every entry
    of the sensor status is healthy; otherwise it is "Sensor errors: "
    followed by the names of the unhealthy channels, each of them and no
    other, separated by commas. *)
Theorem status_line_meaning
    (sensor_status : list (string * SensorManager.status)) :
  (Display.status_line sensor_status = "Systems nominal" <->
   forall name entry, In (name, entry) sensor_status ->
                      SensorManager.healthy entry = true) /\
  (forall name,
     In name (Display.failed_sensors sensor_status) <->
     exists entry, In (name, entry) sensor_status /\
                   SensorManager.healthy entry = false) /\
  (Display.failed_sensors sensor_status <> [] ->
   Display.status_line sensor_status =
     "Sensor errors: "
     +:+ String.concat ", " (Display.failed_sensors sensor_status)).
Proof.
  assert (Hin : forall name,
            In name (Display.failed_sensors sensor_status) <->
            exists entry, In (name, entry) sensor_status /\
                          SensorManager.healthy entry = false).
  { intros name. unfold Display.failed_sensors. rewrite in_map_iff. split.
    - intros ([n entry] & <- & H). apply List.filter_In in H.
      destruct H as [H1 H2]. exists entry. split; [exact H1|].
      simpl in H2. destruct (SensorManager.healthy entry); [discriminate|auto].
    - intros (entry & H1 & H2). exists (name, entry). split; [reflexivity|].
      apply List.filter_In. split; [exact H1|]. simpl. rewrite H2. reflexivity. }
  split; [|split; [exact Hin|]].
  - unfold Display.status_line.
    destruct (Display.failed_sensors sensor_status) as [|n rest] eqn:E.
    + split; [|reflexivity]. intros _ name entry H.
      destruct (SensorManager.healthy entry) eqn:Hh; [reflexivity|].
      assert (Hn : In name []) by (apply Hin; eauto). destruct Hn.
    + split; [discriminate|]. intros H.
      assert (Hn : In n (n :: rest)) by (left; reflexivity).
      apply Hin in Hn. destruct Hn as (entry & H1 & H2).
      rewrite (H n entry H1) in H2. discriminate.
  - unfold Display.status_line.
    destruct (Display.failed_sensors sensor_status); [congruence|reflexivity].
Qed.

(** * The display on a coordinator *)

Module WiredFacts.

Import SensorManager.









End WiredFacts.






Module ResetFacts.

Import Display.

Lemma set_stat_ok {G} (key text : string) (g : G) (d : t) :
  is_Some (stats_vars d !! key) ->
  set_var stats_vars set_stats_vars key text (g, d)
  = (Ok tt, (g, set_stats_vars (<[key := text]> (stats_vars d)) d)).
Proof. intros [x H]. unfold set_var. cbn [fst snd]. rewrite H. reflexivity. Qed.

(** With all five statistics at hand and all five variables in place,
    [_update_statistics] writes each of them. *)
Lemma _update_statistics_run {G} (cb : callbacks G) (tk : toolkit)
    (g g1 : G) (d : t) (stats : gmap string float) (v1 v2 v3 v4 v5 : float) :
  Main.statistics_ready d ->
  get_statistics cb g = (Ok stats, g1) ->
  stats !! "max_speed_kmh" = Some v1 ->
  stats !! "total_distance_km" = Some v2 ->
  stats !! "max_cornering_force_g" = Some v3 ->
  stats !! "max_braking_force_g" = Some v4 ->
  stats !! "session_duration_hours" = Some v5 ->
  _update_statistics cb tk (g, d) =
  (Ok tt,
   (g1,
    set_stats_vars
      (<["session_time" := format tk 1 v5]>
       (<["max_braking" := format tk 2 v4]>
       (<["max_cornering" := format tk 2 v3]>
       (<["total_distance" := format tk 2 v2]>
       (<["max_speed" := format tk 1 (v1 * 0.621371)]> (stats_vars d))))))
      d)).
Proof.
  intros (R1 & R2 & R3 & R4 & R5) Hg H1 H2 H3 H4 H5.
  unfold _update_statistics, try_except.
  rewrite (DisplayFacts.bind_ok _ _ _ _ _ (DisplayFacts.call_ok _ _ _ d _ Hg)).
  unfold lift, item. rewrite H1, H2, H3, H4, H5.
  unfold bind at 1.
  do 5 (match goal with
        | |- context [bind (set_var stats_vars set_stats_vars ?k ?x) _
                        (g1, ?dd)] =>
            let H := fresh "Hkey" in
            assert (H : is_Some (stats_vars dd !! k))
              by (cbn; rewrite ?lookup_insert_ne by done; assumption);
            rewrite (DisplayFacts.bind_ok _ _ _ _ _ (set_stat_ok k x g1 dd H));
            clear H; try unfold bind at 1
        | |- context [set_var stats_vars set_stats_vars ?k ?x (g1, ?dd)] =>
            let H := fresh "Hkey" in
            assert (H : is_Some (stats_vars dd !! k))
              by (cbn; rewrite ?lookup_insert_ne by done; assumption);
            rewrite (set_stat_ok k x g1 dd H); clear H
        end).
  reflexivity.
Qed.

End ResetFacts.

(** X24. Pressing the reset button of a display wired to a coordinator
    zeroes the tracker and shows it at once: the four records on the
    statistics page are the renderings of zero, the status reads
    "Statistics reset successfully!" and the return to "Systems nominal" is
    due in three seconds. *)
Theorem reset_button_shows_zeroes
    (has_gpio has_i2c : bool) (hall barometer thermometer : Channel float)
    (accelerometer : Channel (float * float * float))
    (tk : Display.toolkit) (w : World) (m : SensorManager.t)
    (d : Display.t) :
  Main.statistics_ready d ->
  let cb := Main.wired has_gpio has_i2c hall barometer thermometer
              accelerometer in
  let out := Display._reset_statistics cb tk ((w, m), d) in
  let d' := snd (snd out) in
  fst out = Ok tt /\
  StatisticsTracker.durable (SensorManager.statistics (snd (fst (snd out))))
    = (0.0, 0.0, 0.0, 0.0) /\
  Display.stats_vars d' !! "max_speed" = Some (Display.format tk 1 0.0) /\
  Display.stats_vars d' !! "total_distance" = Some (Display.format tk 2 0.0) /\
  Display.stats_vars d' !! "max_cornering" = Some (Display.format tk 2 0.0) /\
  Display.stats_vars d' !! "max_braking" = Some (Display.format tk 2 0.0) /\
  Display.status_var d' = "Statistics reset successfully!" /\
  Display.pending d' = Display.pending d ++ [(3000%Z, "Systems nominal")].
Proof.
  intros Hready cb out d'. unfold d', out. clear d' out.
  unfold Display._reset_statistics.
  assert (Er : Display.reset_statistics cb (w, m)
               = (Ok tt, snd (SensorManager.reset_statistics (w, m)))).
  { cbn [cb Main.wired Display.reset_statistics].
    unfold SensorManager.reset_statistics, SensorManager.on_statistics, zoom.
    cbn [fst snd]. rewrite TrackerFacts.reset_statistics_eq. reflexivity. }
  rewrite (DisplayFacts.bind_ok _ _ _ _ _
             (DisplayFacts.call_ok _ _ _ d _ Er)).
  assert (Hd : StatisticsTracker.durable
                 (SensorManager.statistics
                    (snd (snd (SensorManager.reset_statistics (w, m)))))
               = (0.0, 0.0, 0.0, 0.0)).
  { unfold SensorManager.reset_statistics, SensorManager.on_statistics, zoom.
    cbn [fst snd]. rewrite TrackerFacts.reset_statistics_eq. reflexivity. }
  destruct (snd (SensorManager.reset_statistics (w, m))) as [w1 m1].
  cbn [snd] in Hd.
  set (s1 := SensorManager.statistics m1) in *.
  assert (H1 : StatisticsTracker.max_speed_kmh s1 = 0.0)
    by exact (f_equal (fun t => fst (fst (fst t))) Hd).
  assert (H2 : StatisticsTracker.total_distance_km s1 = 0.0)
    by exact (f_equal (fun t => snd (fst (fst t))) Hd).
  assert (H3 : StatisticsTracker.max_cornering_force_g s1 = 0.0)
    by exact (f_equal (fun t => snd (fst t)) Hd).
  assert (H4 : StatisticsTracker.max_braking_force_g s1 = 0.0)
    by exact (f_equal (fun t => snd t) Hd).
  eassert (Eg : Display.get_statistics cb (w1, m1) = (Ok _, _)).
  { cbn [cb Main.wired Display.get_statistics].
    unfold SensorManager.get_statistics, SensorManager.on_statistics, zoom.
    cbn [fst snd]. fold s1. rewrite TrackerFacts.get_statistics_eq.
    reflexivity. }
  rewrite (DisplayFacts.bind_ok _ _ _ _ _
             (ResetFacts._update_statistics_run cb tk _ _ d _ _ _ _ _ _
                Hready Eg eq_refl eq_refl eq_refl eq_refl eq_refl)).
  unfold bind, Display.own, modify. cbn [fst snd].
  rewrite H1, H2, H3, H4.
  split; [reflexivity|]. split; [exact Hd|].
  repeat split; cbn;
    rewrite ?lookup_insert_ne by done; rewrite ?lookup_insert_eq; reflexivity.
Qed.

Lemma built_statistics_ready : Main.statistics_ready Display.__init__.
Proof. repeat split; eexists; reflexivity. Qed.

Lemma reset_button_shows_zeroes_witness :
  Main.statistics_ready Display.__init__ /\
  Display.stats_vars
    (snd (snd (Display._reset_statistics
                 (Main.wired false false Demo.broken Demo.broken Demo.broken
                    Demo.broken)
                 Main.plain ((Demo.first_run, Demo.manager), Display.__init__))))
    !! "max_speed" = Some "0".
Proof.
  split; [exact built_statistics_ready|].
  exact (proj1 (proj2 (proj2
           (reset_button_shows_zeroes false false Demo.broken Demo.broken
              Demo.broken Demo.broken Main.plain Demo.first_run Demo.manager
              Display.__init__ built_statistics_ready)))).
Defined.

(** X25. The simulated speed of the demonstration mode is a number not
    below zero whenever it is produced, whatever the sine and the noise
    drawn; it fails to be produced only when the elapsed time scaled by 0.35
    is infinite, with the [ValueError] of [math.sin]. *)
Theorem demo_speed_not_negative
    (sin : float -> float) (noise : float) (w : World) (s : DemoSensors.t) :
  match fst (DemoSensors.speed_kmh sin noise (w, s)) with
  | Ok v => (v <? 0) = false /\ is_nan v = false
  | Raise e =>
      e = ValueError /\
      is_infinity ((now w - DemoSensors._t0 s) * 0.35) = true
  end.
Proof.
  unfold DemoSensors.speed_kmh, DemoSensors._t, bind, time_time, self, gets,
    ret, lift, math_sin.
  cbn [fst snd].
  destruct (is_infinity ((now w - DemoSensors._t0 s) * 0.35)); cbn [fst snd].
  - auto.
  - apply ManagerMore.max2_zero_number.
Qed.
